(** * ambianic-edge: the AI inference pipeline element

    A shallow embedding of [src/ambianic/pipeline/inference.py]
    ([load_labels], [AiInference.__init__],
    [AiInference.receive_next_sample]) and of the callback and the drawing
    code of [src/ambianic/cameras/detect.py] ([inference_callback],
    [shadow_text], [generate_svg]), with the properties the specification
    states about them and further properties read off the code.

    Conventions of the embedding:
    - a Python [float] is a primitive binary64 float, so that timestamps are
      subtracted, multiplied and divided exactly as CPython does it;
    - the text of the labels file is a list of characters restricted to the
      code points 0..255; [\s], [\d] and [str.strip] are the Unicode
      predicates of CPython on that range;
    - everything the element reaches outside itself (the monotonic clock, the
      file system, the Edge TPU engine, the next pipe element) is a field of
      an environment record [Env]; a method is a function from a state to an
      outcome and a state, and the state survives a raised exception, as the
      attributes of a Python object do. *)

From Stdlib Require Import ZArith String Ascii List Lia.
From Stdlib Require Import Floats.PrimFloat Floats.FloatOps Floats.SpecFloat.
From stdpp Require Import base option list gmap strings pretty.

Set Warnings "-inexact-float".

Local Open Scope Z_scope.

(** ** Python [str] primitives used by [load_labels] *)

Module PyStr.

(** A character is a code point below 256. *)
Definition code (c : ascii) : nat := nat_of_ascii c.

Definition LF : ascii := ascii_of_nat 10.
Definition CR : ascii := ascii_of_nat 13.

Definition is_LF (c : ascii) : bool := Nat.eqb (code c) 10.
Definition is_CR (c : ascii) : bool := Nat.eqb (code c) 13.

(** [Py_UNICODE_ISSPACE]: what [\s] matches and what [str.strip] removes. *)
Definition isspace (c : ascii) : bool :=
  let n := code c in
  ((9 <=? n) && (n <=? 13) || (28 <=? n) && (n <=? 32)
   || (n =? 133) || (n =? 160))%nat.

(** [Py_UNICODE_ISDECIMAL]: what [\d] matches. *)
Definition isdecimal (c : ascii) : bool :=
  let n := code c in ((48 <=? n) && (n <=? 57))%nat.

Definition digit_value (c : ascii) : Z := Z.of_nat (code c) - 48.

(** [int(s)] on a string of decimal digits, of any length (interpreters
    from 3.11 on refuse more than 4300 digits unless told otherwise). *)
Definition int (s : list ascii) : Z :=
  fold_left (fun acc c => 10 * acc + digit_value c) s 0.

Fixpoint lstrip (s : list ascii) : list ascii :=
  match s with
  | c :: s' => if isspace c then lstrip s' else s
  | [] => []
  end.

Definition rstrip (s : list ascii) : list ascii := rev (lstrip (rev s)).

(** [s.strip()] *)
Definition strip (s : list ascii) : list ascii := rstrip (lstrip s).

(** Text mode with [newline=None]: ["\r\n"] and a lone ["\r"] are read as
    ["\n"]. *)
Fixpoint universal_newlines (s : list ascii) : list ascii :=
  match s with
  | [] => []
  | c :: s' =>
      if is_CR c then
        match s' with
        | d :: s'' =>
            if is_LF d then LF :: universal_newlines s''
            else LF :: universal_newlines s'
        | [] => [LF]
        end
      else c :: universal_newlines s'
  end.

(** The lines of a text, each with its ["\n"] kept; a last line without
    ["\n"] is a line too. *)
Fixpoint split_keepends (s : list ascii) : list (list ascii) :=
  match s with
  | [] => []
  | c :: s' =>
      if is_LF c then [c] :: split_keepends s'
      else match split_keepends s' with
           | [] => [[c]]
           | l :: ls => (c :: l) :: ls
           end
  end.

(** [f.readlines()] of a file opened in text mode, from its decoded text. *)
Definition readlines (text : list ascii) : list (list ascii) :=
  split_keepends (universal_newlines text).

Definition of_string (s : string) : list ascii := list_ascii_of_string s.

(** A line as [readlines] gives it: a newline can only be its last
    character. *)
Definition newline_only_last (s : list ascii) : Prop :=
  forall (i : nat) (c : ascii), s !! i = Some c -> is_LF c = true -> S i = length s.

End PyStr.

(** ** The fragment of [re] that the patterns of this program use

    A pattern is a sequence of greedy repetitions of a character class, each
    with a lower bound and no upper bound, some of them capturing.  [rmatch]
    is [Pattern.match]: it anchors at the start of the string, tries the
    longest repetition first and backtracks to shorter ones. *)

Module Re.

Inductive CharClass : Type :=
| Space   (* \s *)
| Digit   (* \d *)
| Dot.    (* .  without DOTALL: anything but a newline *)

Definition in_class (k : CharClass) (c : ascii) : bool :=
  match k with
  | Space => PyStr.isspace c
  | Digit => PyStr.isdecimal c
  | Dot => negb (PyStr.is_LF c)
  end.

Record Item : Type :=
  { item_class : CharClass; item_min : nat; item_group : bool }.

Definition star (k : CharClass) : Item :=
  {| item_class := k; item_min := 0; item_group := false |}.
Definition plus (k : CharClass) : Item :=
  {| item_class := k; item_min := 1; item_group := false |}.
Definition group_plus (k : CharClass) : Item :=
  {| item_class := k; item_min := 1; item_group := true |}.

(** Length of the longest prefix of [s] made of characters of [k]. *)
Fixpoint run_length (k : CharClass) (s : list ascii) : nat :=
  match s with
  | c :: s' => if in_class k c then S (run_length k s') else O
  | [] => O
  end.

(** The first success of [f] at [n], [n-1], ..., [0]. *)
Fixpoint first_down {X : Type} (f : nat -> option X) (n : nat) : option X :=
  match f n with
  | Some x => Some x
  | None => match n with
            | O => None
            | S n' => first_down f n'
            end
  end.

(** The captured groups of the match of [p] at the start of [s]. *)
Fixpoint rmatch (p : list Item) (s : list ascii) : option (list (list ascii)) :=
  match p with
  | [] => Some []
  | it :: p' =>
      first_down
        (fun n =>
           if (item_min it <=? n)%nat then
             match rmatch p' (drop n s) with
             | Some gs => Some (if item_group it then take n s :: gs else gs)
             | None => None
             end
           else None)
        (run_length (item_class it) s)
  end.

End Re.

Import PyStr.

(** ** Python values, exceptions and the %-formatting of a float *)

(** The values a configuration entry holds. *)
Inductive Value : Type :=
| VNone
| VStr (s : string)
| VInt (z : Z)
| VFloat (f : float).

(** Truth value of an object, as [assert x] and [if x:] test it. *)
Definition truthy (v : Value) : bool :=
  match v with
  | VNone => false
  | VStr s => negb (String.eqb s "")
  | VInt z => negb (z =? 0)
  | VFloat f => negb (PrimFloat.eqb f 0)
  end.

(** [d.get(key, default)] *)
Definition dict_get (d : gmap string Value) (key : string) (dflt : Value) : Value :=
  default dflt (d !! key).

Inductive PyExn : Type :=
| AssertionError (template : string) (arg : option Value)
    (* the message is [template.format(arg)] *)
| AttributeError (msg : string)
| ValueError (msg : string)
| ZeroDivisionError (msg : string)
| Foreign (name : string) (msg : string).
    (* raised by a collaborator: the engine, the operating system, the next
       pipe element *)

Inductive outcome (A : Type) : Type :=
| Return (a : A)
| Raise (e : PyExn).
Arguments Return {A} a.
Arguments Raise {A} e.

(** [a / b] on floats: CPython raises when [b == 0.0] and divides
    otherwise. *)
Definition float_truediv (a b : float) : outcome float :=
  if PrimFloat.eqb b 0 then Raise (ZeroDivisionError "float division by zero")
  else Return (a / b)%float.

(** ['%.2f' % x]: the exact value of [x] rounded to two decimals, ties to
    even. *)
Definition round_half_even (n d : Z) : Z :=
  let q := n / d in
  let r := n mod d in
  if 2 * r <? d then q
  else if d <? 2 * r then q + 1
  else if Z.even q then q else q + 1.

Definition two_digits (k : Z) : string :=
  if k <? 10 then ("0" ++ pretty k)%string else pretty k.

Definition hundredths (m : positive) (e : Z) : Z :=
  if 0 <=? e then Z.pos m * 100 * 2 ^ e
  else round_half_even (Z.pos m * 100) (2 ^ (- e)).

Definition format_2f (x : float) : string :=
  match Prim2SF x with
  | S754_nan => "nan"
  | S754_infinity s => if s then "-inf" else "inf"
  | S754_zero s => if s then "-0.00" else "0.00"
  | S754_finite s m e =>
      let h := hundredths m e in
      ((if s then "-" else "") ++ pretty (h / 100) ++ "." ++ two_digits (h mod 100))%string
  end.

(** ** State-and-exception monad

    A computation takes a state and gives an outcome and a state; the state
    reached when an exception is raised is kept. *)

Definition M (S A : Type) : Type := S -> outcome A * S.

Definition ret {S A : Type} (a : A) : M S A := fun s => (Return a, s).

Definition raise {S A : Type} (e : PyExn) : M S A := fun s => (Raise e, s).

Definition bind {S A B : Type} (m : M S A) (k : A -> M S B) : M S B :=
  fun s =>
    match m s with
    | (Return a, s') => k a s'
    | (Raise e, s') => (Raise e, s')
    end.

Definition lift_outcome {S A : Type} (o : outcome A) : M S A := fun s => (o, s).

Definition gets {S A : Type} (f : S -> A) : M S A := fun s => (Return (f s), s).

Definition modify {S : Type} (f : S -> S) : M S unit := fun s => (Return tt, f s).

Declare Scope py_scope.
Delimit Scope py_scope with py.
Notation "x <- m ;; k" := (bind m (fun x => k))
  (at level 100, m at next level, right associativity) : py_scope.
Notation "m ;; k" := (bind m (fun _ => k))
  (at level 100, right associativity) : py_scope.

(** [assert cond, template.format(arg)], in an interpreter that runs
    assertions (no [-O]). *)
Definition py_assert {S : Type} (cond : bool) (template : string) (arg : option Value)
  : M S unit :=
  if cond then ret tt else raise (AssertionError template arg).

(** ** The pipe element and its world *)

(** Identity of a pipe element object. *)
Definition Ref : Type := nat.

(** Modelled from the spec: the base class [PipeElement] of
    [ambianic/pipeline/__init__.py], which is not among the sources.  An
    element holds an optional reference to the next element, none when it is
    constructed; [set_next] stores the reference, the last call winning. *)
Record PipeElement : Type := { next_element : option Ref }.

Definition PipeElement_init : PipeElement := {| next_element := None |}.

Definition PipeElement_set_next (self : PipeElement) (element : Ref) : PipeElement :=
  {| next_element := Some element |}.

Section Element.

(** Opaque data of the collaborators: a camera frame, the list of detection
    candidates the engine returns, an engine handle. *)
Context {Image Objs Engine : Type}.

(** What [receive_next_sample] hands to the next element:
    [[objs, self.labels, text_lines]]. *)
Record Sample : Type :=
  { sample_objs : Objs;
    sample_labels : gmap Z (list ascii);
    sample_text_lines : string }.

Inductive Event : Type :=
| EvLog (template : string) (args : list Value)
| EvEngineLoad (model : Value)
| EvDetect (eng : Engine) (image : Image) (threshold : Value)
           (keep_aspect_ratio relative_coord : bool) (top_k : Z)
| EvForward (target : Ref) (sample : Sample).

(** The world outside the element: how many times the clock has been read,
    and what has been done so far, oldest first. *)
Record World : Type := { ticks : nat; trace : list Event }.

(** The collaborators.  The reading of the clock depends on how often it
    was read before; the engine and the next element may answer
    differently as time goes by, so they see the number of readings too. *)
Record Env : Type :=
  { monotonic : nat -> float;
    os_path_isfile : Value -> outcome bool;
    open_read : Value -> outcome (list ascii);
        (* open(path, 'r', encoding='utf-8'): the decoded text *)
    DetectionEngine : Value -> outcome Engine;
    DetectWithImage :
      nat -> Engine -> Image -> Value -> bool -> bool -> Z -> outcome Objs;
    next_receive_next_sample : nat -> Ref -> Sample -> outcome unit }.

Record AiInference : Type :=
  { base : PipeElement;
    config : gmap string Value;
    engine : Engine;
    labels : gmap Z (list ascii);
    last_time : float;
    confidence_threshold : Value }.

Definition set_last_time (t : float) (self : AiInference) : AiInference :=
  {| base := base self; config := config self; engine := engine self;
     labels := labels self; last_time := t;
     confidence_threshold := confidence_threshold self |}.

(** [a.set_next(b)] on an [AiInference], inherited from [PipeElement]. *)
Definition set_next (self : AiInference) (element : Ref) : AiInference :=
  {| base := PipeElement_set_next (base self) element;
     config := config self; engine := engine self;
     labels := labels self; last_time := last_time self;
     confidence_threshold := confidence_threshold self |}.

Variable env : Env.

(** *** Effects on the world *)

Definition emit (ev : Event) : M World unit :=
  modify (fun w => {| ticks := ticks w; trace := trace w ++ [ev] |}).

(** [log.info(template, *args)]; the record is formatted by the logging
    module, whose failures never reach the caller. *)
Definition log_info (template : string) (args : list Value) : M World unit :=
  emit (EvLog template args).

(** [time.monotonic()] *)
Definition time_monotonic : M World float :=
  fun w => (Return (monotonic env (ticks w)),
            {| ticks := S (ticks w); trace := trace w |}).

(** *** [load_labels] *)

(** [re.compile(r'\s*(\d+)(.+)')] *)
Definition p : list Re.Item :=
  [Re.star Re.Space; Re.group_plus Re.Digit; Re.group_plus Re.Dot].

(** The dict comprehension over the lazily matched lines: the first line
    that [p] does not match raises on [None.groups()], and the dict built
    so far is lost. *)
Fixpoint labels_of_lines (lines : list (list ascii)) (acc : gmap Z (list ascii))
  : outcome (gmap Z (list ascii)) :=
  match lines with
  | [] => Return acc
  | line :: rest =>
      match Re.rmatch p line with
      | None => Raise (AttributeError "'NoneType' object has no attribute 'groups'")
      | Some [num; text] => labels_of_lines rest (<[int num := strip text]> acc)
      | Some _ => Raise (ValueError "not enough values to unpack")
      end
  end.

Definition load_labels (path : Value) : M World (gmap Z (list ascii)) :=
  (text <- lift_outcome (open_read env path) ;;
   lift_outcome (labels_of_lines (readlines text) ∅))%py.

(** *** [AiInference.__init__] *)

Definition AiInference_init (element_config : option (gmap string Value))
  : M World AiInference :=
  (let pipe := PipeElement_init in
   cfg <- match element_config with
          | Some c => ret c
          | None => raise (AttributeError "'NoneType' object has no attribute 'get'")
          end ;;
   let model := dict_get cfg "model" VNone in
   py_assert (truthy model) "pipeline element ai: requires argument model:" None ;;
   model_is_file <- lift_outcome (os_path_isfile env model) ;;
   py_assert model_is_file "AI model file does not exist: {}" (Some model) ;;
   let labels_path := dict_get cfg "labels" VNone in
   labels_is_file <- lift_outcome (os_path_isfile env labels_path) ;;
   py_assert labels_is_file "AI model labels file does not exist: {}"
     (Some labels_path) ;;
   log_info "Loading AI model %s with labels %s" [model; labels_path] ;;
   emit (EvEngineLoad model) ;;
   eng <- lift_outcome (DetectionEngine env model) ;;
   lbls <- load_labels labels_path ;;
   now <- time_monotonic ;;
   let threshold := dict_get cfg "confidence_threshold" (VFloat 0.6) in
   log_info "AI model confidence threshold: 0:.0f%" [threshold] ;;
   ret {| base := pipe; config := cfg; engine := eng; labels := lbls;
          last_time := now; confidence_threshold := threshold |})%py.

(** The events of a construction that reaches the engine. *)
Definition init_events (cfg : gmap string Value) : list Event :=
  [EvLog "Loading AI model %s with labels %s"
     [dict_get cfg "model" VNone; dict_get cfg "labels" VNone];
   EvEngineLoad (dict_get cfg "model" VNone)].

Definition constructed (cfg : gmap string Value) (eng : Engine)
    (lbls : gmap Z (list ascii)) (now : float) : AiInference :=
  {| base := PipeElement_init; config := cfg; engine := eng; labels := lbls;
     last_time := now;
     confidence_threshold := dict_get cfg "confidence_threshold" (VFloat 0.6) |}.

(** *** [AiInference.receive_next_sample] *)

(** The state of a method call: the object and the world. *)
Record St : Type := { self : AiInference; world : World }.

Definition in_world {A : Type} (m : M World A) : M St A :=
  fun st =>
    let (o, w) := m (world st) in (o, {| self := self st; world := w |}).

Definition inf_info : string := "Inference: %.2f ms  FPS: %.2f fps".

(** [inf_info % (inf_time, fps)] *)
Definition format_inf_info (inf_time fps : float) : string :=
  ("Inference: " ++ format_2f inf_time ++ " ms  FPS: " ++ format_2f fps ++ " fps")%string.

Definition engine_detect (image : Image) : M St Objs :=
  fun st =>
    let s := self st in
    let w := world st in
    let call := EvDetect (engine s) image (confidence_threshold s) true true 3 in
    (DetectWithImage env (ticks w) (engine s) image (confidence_threshold s) true true 3,
     {| self := s; world := {| ticks := ticks w; trace := trace w ++ [call] |} |}).

Definition forward (target : Ref) (sample : Sample) : M St unit :=
  fun st =>
    let w := world st in
    (next_receive_next_sample env (ticks w) target sample,
     {| self := self st;
        world := {| ticks := ticks w; trace := trace w ++ [EvForward target sample] |} |}).

Definition receive_next_sample (image : Image) : M St unit :=
  (in_world (log_info "AI inference received new sample" []) ;;
   start_time <- in_world time_monotonic ;;
   in_world (log_info "Calling Coral engine for inference" []) ;;
   objs <- engine_detect image ;;
   in_world (log_info "Coral engine returned inference results" []) ;;
   end_time <- in_world time_monotonic ;;
   let inf_time := ((end_time - start_time) * 1000)%float in
   last <- gets (fun st => last_time (self st)) ;;
   fps <- lift_outcome (float_truediv 1 (end_time - last)) ;;
   in_world (log_info inf_info [VFloat inf_time; VFloat fps]) ;;
   modify (fun st => {| self := set_last_time end_time (self st); world := world st |}) ;;
   let text_lines := format_inf_info inf_time fps in
   next <- gets (fun st => next_element (base (self st))) ;;
   match next with
   | Some target =>
       lbls <- gets (fun st => labels (self st)) ;;
       forward target
         {| sample_objs := objs; sample_labels := lbls;
            sample_text_lines := text_lines |}
   | None => ret tt
   end)%py.

(** *** What a trace shows *)

(** The calls made to the next element's [receive_next_sample]. *)
Fixpoint forwards (evs : list Event) : list (Ref * Sample) :=
  match evs with
  | [] => []
  | EvForward target sample :: evs' => (target, sample) :: forwards evs'
  | _ :: evs' => forwards evs'
  end.

(** The calls made to the engine's [DetectWithImage]. *)
Fixpoint detect_calls (evs : list Event) : list Event :=
  match evs with
  | [] => []
  | EvDetect eng image thr kar rel k :: evs' =>
      EvDetect eng image thr kar rel k :: detect_calls evs'
  | _ :: evs' => detect_calls evs'
  end.

(** The events a call added to the trace it started from. *)
Definition events_since (before : World) (after : St) : list Event :=
  drop (length (trace before)) (trace (world after)).

(** The answer of the engine to the call that
    [receive_next_sample image] makes from [st], after one reading of the
    clock. *)
Definition engine_answer (st : St) (image : Image) : outcome Objs :=
  DetectWithImage env (S (ticks (world st))) (engine (self st)) image
    (confidence_threshold (self st)) true true 3.

(** The two readings of the clock of that call. *)
Definition start_of (st : St) : float := monotonic env (ticks (world st)).
Definition end_of (st : St) : float := monotonic env (S (ticks (world st))).

(** The sample the call hands on when the engine answers [objs]. *)
Definition produced (st : St) (objs : Objs) : Sample :=
  {| sample_objs := objs;
     sample_labels := labels (self st);
     sample_text_lines :=
       format_inf_info ((end_of st - start_of st) * 1000)%float
                       (1 / (end_of st - last_time (self st)))%float |}.

(** The events of a call up to the answer of the engine. *)
Definition prologue (st : St) (image : Image) : list Event :=
  [EvLog "AI inference received new sample" [];
   EvLog "Calling Coral engine for inference" [];
   EvDetect (engine (self st)) image (confidence_threshold (self st)) true true 3].

(** The events of a call from the answer of the engine to the update of
    [last_time]. *)
Definition epilogue (st : St) : list Event :=
  [EvLog "Coral engine returned inference results" [];
   EvLog inf_info
     [VFloat ((end_of st - start_of st) * 1000)%float;
      VFloat (1 / (end_of st - last_time (self st)))%float]].

(** The state [t] readings of the clock and the events [evs] later, with
    [last_time] set to [t_last]. *)
Definition after (st : St) (t : nat) (t_last : float) (evs : list Event) : St :=
  {| self := set_last_time t_last (self st);
     world := {| ticks := t + ticks (world st); trace := trace (world st) ++ evs |} |}.

(** The settings of a stage that no call changes. *)
Definition settings (a : AiInference) : Engine * Value :=
  (engine a, confidence_threshold a).

(** A stage as it was constructed, or wired to a next element. *)
Definition wire (a : AiInference) (link : option Ref) : AiInference :=
  match link with
  | Some b => set_next a b
  | None => a
  end.

(** The same stage object called once per image of [images], whatever each
    call does. *)
Fixpoint run_calls (images : list Image) (st : St) : St :=
  match images with
  | [] => st
  | image :: rest => run_calls rest (snd (receive_next_sample image st))
  end.

End Element.

Arguments Sample : clear implicits.
Arguments Event : clear implicits.
Arguments World : clear implicits.
Arguments Env : clear implicits.
Arguments AiInference : clear implicits.
Arguments St : clear implicits.

(** ** The timing code of [cameras/detect.py]

    [inference_callback] keeps [last_time] in a closure variable and makes the
    same computation; after it has updated [last_time] it evaluates the name
    [text_lines], which no scope defines. *)

Section Callback.

Context {Image Objs Engine : Type}.
Variable env : Env Image Objs Engine.

(** [args] of the command line and the engine of [start]. *)
Record CallbackState : Type :=
  { cb_engine : Engine; cb_threshold : Value; cb_top_k : Z;
    cb_last_time : float; cb_world : World Image Objs Engine }.

Definition cb_in_world {A : Type} (m : M (World Image Objs Engine) A)
  : M CallbackState A :=
  fun st =>
    let (o, w) := m (cb_world st) in
    (o, {| cb_engine := cb_engine st; cb_threshold := cb_threshold st;
           cb_top_k := cb_top_k st; cb_last_time := cb_last_time st;
           cb_world := w |}).

Definition cb_detect (image : Image) : M CallbackState Objs :=
  fun st =>
    let w := cb_world st in
    let call := EvDetect (cb_engine st) image (cb_threshold st) true true (cb_top_k st) in
    (DetectWithImage env (ticks w) (cb_engine st) image (cb_threshold st) true true
       (cb_top_k st),
     {| cb_engine := cb_engine st; cb_threshold := cb_threshold st;
        cb_top_k := cb_top_k st; cb_last_time := cb_last_time st;
        cb_world := {| ticks := ticks w; trace := trace w ++ [call] |} |}).

Definition inference_callback (image : Image) : M CallbackState unit :=
  (start_time <- cb_in_world (time_monotonic env) ;;
   objs <- cb_detect image ;;
   end_time <- cb_in_world (time_monotonic env) ;;
   let inf_time := ((end_time - start_time) * 1000)%float in
   last <- gets cb_last_time ;;
   fps <- lift_outcome (float_truediv 1 (end_time - last)) ;;
   cb_in_world (log_info "Inference: %.2f ms  FPS: %.2f fps" [VFloat inf_time; VFloat fps]) ;;
   modify (fun st => {| cb_engine := cb_engine st; cb_threshold := cb_threshold st;
                        cb_top_k := cb_top_k st; cb_last_time := end_time;
                        cb_world := cb_world st |}) ;;
   raise (Foreign "NameError" "name 'text_lines' is not defined"))%py.

End Callback.

(** ** The specification's reading of the labels file

    The specification describes a line as [<integer id><whitespace><free-text
    label>], pattern [\d+\s+.+], and the mapping as taking each identifier
    to its label with the surrounding whitespace trimmed. *)

Module Spec.

(** [(\d+)\s+(.+)] *)
Definition line_pattern : list Re.Item :=
  [Re.group_plus Re.Digit; Re.plus Re.Space; Re.group_plus Re.Dot].

Definition line_matches (line : list ascii) : bool :=
  match Re.rmatch line_pattern line with
  | Some _ => true
  | None => false
  end.

(** The identifier and the trimmed label of a line. *)
Definition entry (line : list ascii) : option (Z * list ascii) :=
  match Re.rmatch line_pattern line with
  | Some [num; text] => Some (int num, strip text)
  | _ => None
  end.

Definition add_line (m : gmap Z (list ascii)) (line : list ascii)
  : gmap Z (list ascii) :=
  match entry line with
  | Some (k, v) => <[k := v]> m
  | None => m
  end.

(** The mapping of a file, a later line replacing an earlier one with the
    same identifier. *)
Definition mapping (lines : list (list ascii)) : gmap Z (list ascii) :=
  fold_left add_line lines ∅.

(** The top-K cutoff the specification takes from the configuration. *)
Definition configured_top_k (cfg : gmap string Value) : Value :=
  dict_get cfg "top_k" (VInt 3).

(** The engine call the specification describes: the configured threshold
    and the configured top-K cutoff. *)
Definition claimed_detect_call {Image Objs Engine : Type}
    (cfg : gmap string Value) (eng : Engine) (image : Image)
    (ev : Event Image Objs Engine) : Prop :=
  exists k : Z,
    configured_top_k cfg = VInt k
    /\ ev = EvDetect eng image (dict_get cfg "confidence_threshold" (VFloat 0.6))
              true true k.

End Spec.

(** ** A test bench: a fake clock, file system, engine and next element *)

Module Bench.

Definition Image : Type := string.
Definition Objs : Type := list (Z * float).   (* label id and score *)
Definition Engine : Type := string.

Definition clock_readings : list float :=
  [10; 10.25; 10.5; 11; 11.125; 12; 12.5; 13; 13.25; 14]%float.

Definition files : list (string * string) :=
  [("model.tflite", "");
   ("coco_labels.txt", "0 person
15 cat
");
   ("glued.txt", "0person
");
   ("broken.txt", "0 person
cat
2 dog
")].

Fixpoint lookup_file (path : string) (fs : list (string * string)) : option string :=
  match fs with
  | [] => None
  | (name, text) :: fs' => if String.eqb name path then Some text else lookup_file path fs'
  end.

Definition isfile (v : Value) : outcome bool :=
  match v with
  | VStr path => Return (match lookup_file path files with Some _ => true | None => false end)
  | _ => Raise (Foreign "TypeError" "stat: path should be string, bytes, os.PathLike or integer")
  end.

Definition read (v : Value) : outcome (list ascii) :=
  match v with
  | VStr path =>
      match lookup_file path files with
      | Some text => Return (of_string text)
      | None => Raise (Foreign "FileNotFoundError" "No such file or directory")
      end
  | _ => Raise (Foreign "TypeError" "expected str, bytes or os.PathLike object")
  end.

(** The fake engine finds one person in every frame but the one named
    ["corrupt"], on which it raises. *)
Definition detect (now : nat) (eng : Engine) (image : Image) (threshold : Value)
    (keep_aspect_ratio relative_coord : bool) (top_k : Z) : outcome Objs :=
  if String.eqb image "corrupt" then Raise (Foreign "RuntimeError" "engine failure")
  else Return [(0, 0.87%float)].

Definition env : Env Image Objs Engine :=
  {| monotonic := fun n => nth n clock_readings 99%float;
     os_path_isfile := isfile;
     open_read := read;
     DetectionEngine := fun model => Return "engine";
     DetectWithImage := detect;
     next_receive_next_sample := fun _ _ _ => Return tt |}.

Definition world0 : World Image Objs Engine := {| ticks := 0; trace := [] |}.

Definition cfg (labels_file : string) : gmap string Value :=
  <["model" := VStr "model.tflite"]> (<["labels" := VStr labels_file]> ∅).

Definition coco_labels : gmap Z (list ascii) :=
  <[0 := of_string "person"]> (<[15 := of_string "cat"]> ∅).

(** The stage that [AiInference(cfg "coco_labels.txt")] constructs at the
    first reading of the clock. *)
Definition stage : AiInference Engine :=
  {| base := PipeElement_init; config := cfg "coco_labels.txt"; engine := "engine";
     labels := coco_labels; last_time := 10%float;
     confidence_threshold := VFloat 0.6 |}.

Definition world1 : World Image Objs Engine :=
  {| ticks := 1;
     trace := [EvLog "Loading AI model %s with labels %s"
                 [VStr "model.tflite"; VStr "coco_labels.txt"];
               EvEngineLoad (VStr "model.tflite");
               EvLog "AI model confidence threshold: 0:.0f%" [VFloat 0.6]] |}.

(** A configuration that asks for the five best candidates. *)
Definition cfg_top5 : gmap string Value := <["top_k" := VInt 5]> (cfg "coco_labels.txt").

(** A configuration without a model. *)
Definition cfg_no_model : gmap string Value := <["labels" := VStr "coco_labels.txt"]> ∅.

(** The same files seen at another time, by another engine. *)
Definition env_later : Env Image Objs Engine :=
  {| monotonic := fun n => 50%float;
     os_path_isfile := isfile;
     open_read := read;
     DetectionEngine := fun model => Return "other engine";
     DetectWithImage := fun _ _ _ _ _ _ _ => Return [];
     next_receive_next_sample := fun _ _ _ => Return tt |}.

Definition stage_later : AiInference Engine :=
  {| base := PipeElement_init; config := cfg "coco_labels.txt";
     engine := "other engine"; labels := coco_labels; last_time := 50%float;
     confidence_threshold := VFloat 0.6 |}.

(** The stage wired to a next element, ready for its first frame. *)
Definition st1 : St Image Objs Engine :=
  {| self := set_next stage 7%nat; world := world1 |}.

End Bench.

(** ** The drawing code of [cameras/detect.py] *)

(** [float(n)], as [n * x] and [x * n] convert an [int] operand: the nearest
    float, ties to even, and an error when there is none. *)
Definition float_of_int (n : Z) : outcome float :=
  match binary_normalize prec emax n 0 false with
  | S754_infinity _ => Raise (Foreign "OverflowError" "int too large to convert to float")
  | sf => Return (SF2Prim sf)
  end.

(** [int(x)] on a float: truncation towards zero. *)
Definition int_of_float (x : float) : outcome Z :=
  match Prim2SF x with
  | S754_nan => Raise (ValueError "cannot convert float NaN to integer")
  | S754_infinity _ =>
      Raise (Foreign "OverflowError" "cannot convert float infinity to integer")
  | S754_zero _ => Return 0
  | S754_finite s m e =>
      let a := if 0 <=? e then Z.pos m * 2 ^ e else Z.pos m / 2 ^ (- e) in
      Return (if s then - a else a)
  end.

(** [int(x * n)] and [int(n * x)] for a float [x] and an int [n]. *)
Definition int_of_scaled (x : float) (n : Z) : outcome Z :=
  match float_of_int n with
  | Return fn => int_of_float (x * fn)
  | Raise e => Raise e
  end.

(** What the drawing surface holds: the texts and rectangles added to it. *)
Inductive SvgElement : Type :=
| SvgText (text : string) (insert : Z * Z) (fill : string) (font_size : Z)
| SvgRect (insert : Z * Z) (size : Z * Z) (fill : string) (fill_opacity : float)
          (stroke : string).

(** The drawing [dwg]: its [attribs] width and height in pixels and the
    elements added so far, oldest first. *)
Record Drawing : Type :=
  { attribs_width : Z; attribs_height : Z; elements : list SvgElement }.

(** [dwg.add(element)] *)
Definition dwg_add (element : SvgElement) : M Drawing unit :=
  modify (fun dwg => {| attribs_width := attribs_width dwg;
                        attribs_height := attribs_height dwg;
                        elements := elements dwg ++ [element] |}).

(** A detection candidate of the engine: [bounding_box.flatten().tolist()],
    [score] and [label_id]. *)
Record DetectionCandidate : Type :=
  { bounding_box : float * float * float * float;
    score : float;
    label_id : Z }.

Definition shadow_text (x y : Z) (text : string) (font_size : Z) : M Drawing unit :=
  (dwg_add (SvgText text (x + 1, y + 1) "black" font_size) ;;
   dwg_add (SvgText text (x, y) "white" font_size))%py.

(** The first loop of [generate_svg], from row [y] of [enumerate]. *)
Fixpoint draw_text_lines (y : Z) (text_lines : list string) : M Drawing unit :=
  match text_lines with
  | [] => ret tt
  | line :: rest =>
      (shadow_text 10 (y * 20) line 20 ;; draw_text_lines (y + 1) rest)%py
  end.

(** The body of the second loop of [generate_svg]. *)
Definition draw_obj (width height : Z) (labels : gmap Z (list ascii))
    (obj : DetectionCandidate) : M Drawing unit :=
  (let '(x0, y0, x1, y1) := bounding_box obj in
   let '(x, y, w, h) := (x0, y0, (x1 - x0)%float, (y1 - y0)%float) in
   x <- lift_outcome (int_of_scaled x width) ;;
   y <- lift_outcome (int_of_scaled y height) ;;
   w <- lift_outcome (int_of_scaled w width) ;;
   h <- lift_outcome (int_of_scaled h height) ;;
   percent <- lift_outcome (int_of_scaled (score obj) 100) ;;
   name <- match labels !! label_id obj with
           | Some name => ret name
           | None => raise (Foreign "KeyError" (pretty (label_id obj)))
           end ;;
   let label := (pretty percent ++ "% " ++ string_of_list_ascii name)%string in
   shadow_text x (y - 5) label 20 ;;
   dwg_add (SvgRect (x, y) (w, h) "red" 0.3 "white"))%py.

Fixpoint draw_objs (width height : Z) (labels : gmap Z (list ascii))
    (objs : list DetectionCandidate) : M Drawing unit :=
  match objs with
  | [] => ret tt
  | obj :: rest =>
      (draw_obj width height labels obj ;; draw_objs width height labels rest)%py
  end.

Definition generate_svg (objs : list DetectionCandidate)
    (labels : gmap Z (list ascii)) (text_lines : list string) : M Drawing unit :=
  (width <- gets attribs_width ;;
   height <- gets attribs_height ;;
   draw_text_lines 0 text_lines ;;
   draw_objs width height labels objs)%py.

(** ** What [p] does, without the search

    The fields [p.match(s)] captures, computed from the three runs it
    crosses: the whitespace, the digits after it, and what follows the digits
    up to the end of the line. *)

Definition label_fields (s : list ascii) : option (list ascii * list ascii) :=
  let s1 := drop (Re.run_length Re.Space s) s in
  let d := Re.run_length Re.Digit s1 in
  let s2 := drop d s1 in
  let r := Re.run_length Re.Dot s2 in
  if (1 <=? r)%nat then
    if (1 <=? d)%nat then Some (take d s1, take r s2) else None
  else
    if (2 <=? d)%nat then Some (take (d - 1) s1, take 1 (drop (d - 1) s1)) else None.

(** A text with its line ends written as a carriage return and a newline. *)
Fixpoint to_crlf (text : list ascii) : list ascii :=
  match text with
  | [] => []
  | c :: rest => if is_LF c then CR :: LF :: to_crlf rest else c :: to_crlf rest
  end.

(** The elements a drawing gained since it held [before]. *)
Definition drawn_since (before after : Drawing) : list SvgElement :=
  drop (length (elements before)) (elements after).

Definition is_rect (element : SvgElement) : bool :=
  match element with
  | SvgRect _ _ _ _ _ => true
  | SvgText _ _ _ _ => false
  end.

(** A candidate whose box and score convert to whole pixels and percent on a
    drawing [width] by [height]. *)
Definition convertible (width height : Z) (obj : DetectionCandidate) : Prop :=
  let '(x0, y0, x1, y1) := bounding_box obj in
  (exists x, int_of_scaled x0 width = Return x)
  /\ (exists y, int_of_scaled y0 height = Return y)
  /\ (exists w, int_of_scaled (x1 - x0)%float width = Return w)
  /\ (exists h, int_of_scaled (y1 - y0)%float height = Return h)
  /\ (exists percent, int_of_scaled (score obj) 100 = Return percent).

(** The text rows that the first loop of [generate_svg] draws from row [y]
    on: each line in white over its black shadow. *)
Fixpoint text_rows (y : Z) (text_lines : list string) : list SvgElement :=
  match text_lines with
  | [] => []
  | line :: rest =>
      SvgText line (11, y * 20 + 1) "black" 20
      :: SvgText line (10, y * 20) "white" 20
      :: text_rows (y + 1) rest
  end.

(** The drawing with [new] added after what it holds. *)
Definition add_elements (dwg : Drawing) (new : list SvgElement) : Drawing :=
  {| attribs_width := attribs_width dwg; attribs_height := attribs_height dwg;
     elements := elements dwg ++ new |}.

(** ** More of the test bench: a next element that fails, an engine that
    always fails, a drawing *)

Module Bench2.

Definition env_broken_sink : Env Bench.Image Bench.Objs Bench.Engine :=
  {| monotonic := monotonic Bench.env;
     os_path_isfile := Bench.isfile;
     open_read := Bench.read;
     DetectionEngine := fun model => Return "engine"%string;
     DetectWithImage := Bench.detect;
     next_receive_next_sample :=
       fun _ _ _ => Raise (Foreign "RuntimeError" "sink failure") |}.

Definition env_dead_engine : Env Bench.Image Bench.Objs Bench.Engine :=
  {| monotonic := monotonic Bench.env;
     os_path_isfile := Bench.isfile;
     open_read := Bench.read;
     DetectionEngine := fun model => Return "engine"%string;
     DetectWithImage :=
       fun _ _ _ _ _ _ _ => Raise (Foreign "RuntimeError" "no device");
     next_receive_next_sample := fun _ _ _ => Return tt |}.

(** The stage whose [last_time] is the reading the clock gives next. *)
Definition st_stalled : St Bench.Image Bench.Objs Bench.Engine :=
  {| self := set_last_time 10.5 (set_next Bench.stage 7%nat); world := Bench.world1 |}.

(** The closure of [CameraStreamProcessor.start] with the defaults of its
    command line. *)
Definition callback0 : @CallbackState Bench.Image Bench.Objs Bench.Engine :=
  {| cb_engine := "engine"%string; cb_threshold := VFloat 0.2; cb_top_k := 3;
     cb_last_time := 10; cb_world := Bench.world1 |}.

Definition canvas : Drawing :=
  {| attribs_width := 640; attribs_height := 480; elements := [] |}.

Definition person : DetectionCandidate :=
  {| bounding_box := (0.1, 0.1, 0.5, 0.5)%float; score := 0.87; label_id := 0 |}.

Definition unknown : DetectionCandidate :=
  {| bounding_box := (0.2, 0.2, 0.4, 0.4)%float; score := 0.5; label_id := 99 |}.

(** Three more labels files: one with a blank line, one that gives the
    identifier 1 twice, and the labels of the bench as a DOS editor saves
    them. *)
Definition dos_text : list ascii :=
  of_string "0 person" ++ [CR; LF] ++ of_string "15 cat" ++ [CR; LF].

Definition read (v : Value) : outcome (list ascii) :=
  match v with
  | VStr "blank.txt" => Return (of_string "0 person

15 cat
")
  | VStr "twice.txt" => Return (of_string "1 cat
1 dog
")
  | VStr "dos.txt" => Return dos_text
  | _ => Bench.read v
  end.

Definition env_files : Env Bench.Image Bench.Objs Bench.Engine :=
  {| monotonic := monotonic Bench.env;
     os_path_isfile := fun _ => Return true;
     open_read := read;
     DetectionEngine := fun model => Return "engine"%string;
     DetectWithImage := Bench.detect;
     next_receive_next_sample := fun _ _ _ => Return tt |}.

End Bench2.

(** * Properties *)

(** ** Symbolic execution of [receive_next_sample] *)

Section Execution.

Context {Image Objs Engine : Type}.
Variable env : Env Image Objs Engine.

Local Abbreviation St := (St Image Objs Engine).
Local Abbreviation Event := (Event Image Objs Engine).

Lemma set_last_time_same (a : AiInference Engine) :
  set_last_time (last_time a) a = a.
Proof. by destruct a. Qed.

Lemma run_engine_raises (st : St) (image : Image) (e : PyExn) :
  engine_answer env st image = Raise e ->
  receive_next_sample env image st
  = (Raise e, after st 1 (last_time (self st)) (prologue st image)).
Proof.
  intros Hans. unfold after. rewrite set_last_time_same.
  destruct st as [a [t tr]]. unfold engine_answer in Hans. simpl in *.
  unfold receive_next_sample, bind, in_world, log_info, emit, modify,
    time_monotonic, engine_detect. simpl.
  rewrite Hans. unfold prologue. simpl.
  by rewrite <- !app_assoc.
Qed.

Lemma run_zero_elapsed (st : St) (image : Image) (objs : Objs) :
  engine_answer env st image = Return objs ->
  PrimFloat.eqb (end_of env st - last_time (self st)) 0 = true ->
  receive_next_sample env image st
  = (Raise (ZeroDivisionError "float division by zero"),
     after st 2 (last_time (self st))
       (prologue st image ++ [EvLog "Coral engine returned inference results" []])).
Proof.
  intros Hans Hz. unfold after. rewrite set_last_time_same.
  destruct st as [a [t tr]]. unfold engine_answer, end_of in *. simpl in *.
  unfold receive_next_sample, bind, in_world, log_info, emit, modify,
    time_monotonic, engine_detect, gets, lift_outcome, float_truediv. simpl.
  rewrite Hans. simpl. rewrite Hz. unfold prologue. simpl.
  by rewrite <- !app_assoc.
Qed.

Lemma run_terminal (st : St) (image : Image) (objs : Objs) :
  engine_answer env st image = Return objs ->
  PrimFloat.eqb (end_of env st - last_time (self st)) 0 = false ->
  next_element (base (self st)) = None ->
  receive_next_sample env image st
  = (Return tt, after st 2 (end_of env st) (prologue st image ++ epilogue env st)).
Proof.
  intros Hans Hz Hnext.
  destruct st as [a [t tr]]. unfold engine_answer, end_of, start_of, after in *.
  simpl in *.
  unfold receive_next_sample, bind, in_world, log_info, emit, modify,
    time_monotonic, engine_detect, gets, lift_outcome, float_truediv. simpl.
  rewrite Hans. simpl. rewrite Hz. simpl. rewrite Hnext.
  unfold ret, prologue, epilogue, start_of, end_of. simpl.
  by rewrite <- !app_assoc.
Qed.

Lemma run_forwarding (st : St) (image : Image) (objs : Objs) (target : Ref) :
  engine_answer env st image = Return objs ->
  PrimFloat.eqb (end_of env st - last_time (self st)) 0 = false ->
  next_element (base (self st)) = Some target ->
  receive_next_sample env image st
  = (next_receive_next_sample env (2 + ticks (world st)) target (produced env st objs),
     after st 2 (end_of env st)
       (prologue st image ++ epilogue env st ++ [EvForward target (produced env st objs)])).
Proof.
  intros Hans Hz Hnext.
  destruct st as [a [t tr]]. unfold engine_answer, end_of, start_of, after in *.
  simpl in *.
  unfold receive_next_sample, bind, in_world, log_info, emit, modify,
    time_monotonic, engine_detect, gets, lift_outcome, float_truediv. simpl.
  rewrite Hans. simpl. rewrite Hz. simpl. rewrite Hnext.
  unfold forward, prologue, epilogue, produced, start_of, end_of. simpl.
  by rewrite <- !app_assoc.
Qed.

Lemma events_since_after (st : St) (t : nat) (t_last : float) (evs : list Event) :
  events_since (world st) (after st t t_last evs) = evs.
Proof. unfold events_since, after. simpl. by rewrite drop_app_length. Qed.

End Execution.

(** ** Symbolic execution of [AiInference.__init__] *)

Section Construction.

Context {Image Objs Engine : Type}.
Variable env : Env Image Objs Engine.

Local Abbreviation World := (World Image Objs Engine).
Local Abbreviation Event := (Event Image Objs Engine).

Lemma init_returns (cfg : gmap string Value) (w : World) (eng : Engine)
    (text : list ascii) (lbls : gmap Z (list ascii)) :
  truthy (dict_get cfg "model" VNone) = true ->
  os_path_isfile env (dict_get cfg "model" VNone) = Return true ->
  os_path_isfile env (dict_get cfg "labels" VNone) = Return true ->
  DetectionEngine env (dict_get cfg "model" VNone) = Return eng ->
  open_read env (dict_get cfg "labels" VNone) = Return text ->
  labels_of_lines (readlines text) ∅ = Return lbls ->
  AiInference_init env (Some cfg) w
  = (Return (constructed cfg eng lbls (monotonic env (ticks w))),
     {| ticks := S (ticks w);
        trace := trace w ++ init_events cfg
                   ++ [EvLog "AI model confidence threshold: 0:.0f%"
                         [dict_get cfg "confidence_threshold" (VFloat 0.6)]] |}).
Proof.
  intros Hm Hmf Hlf Heng Hread Hlines. destruct w as [t tr].
  unfold AiInference_init, bind, ret, py_assert, lift_outcome, load_labels,
    log_info, emit, modify, time_monotonic. simpl.
  rewrite Hm, Hmf, Hlf. simpl. rewrite Heng, Hread. simpl. rewrite Hlines.
  unfold constructed, init_events. simpl. by rewrite <- !app_assoc.
Qed.

Lemma init_inversion (ocfg : option (gmap string Value)) (w w' : World)
    (a : AiInference Engine) :
  AiInference_init env ocfg w = (Return a, w') ->
  exists cfg text,
    ocfg = Some cfg
    /\ truthy (dict_get cfg "model" VNone) = true
    /\ os_path_isfile env (dict_get cfg "model" VNone) = Return true
    /\ os_path_isfile env (dict_get cfg "labels" VNone) = Return true
    /\ DetectionEngine env (dict_get cfg "model" VNone) = Return (engine a)
    /\ open_read env (dict_get cfg "labels" VNone) = Return text
    /\ labels_of_lines (readlines text) ∅ = Return (labels a)
    /\ a = constructed cfg (engine a) (labels a) (monotonic env (ticks w))
    /\ ticks w' = S (ticks w).
Proof.
  destruct w as [t tr]. destruct ocfg as [cfg|]; [|discriminate].
  unfold AiInference_init, bind, ret, py_assert, lift_outcome, load_labels,
    log_info, emit, modify, time_monotonic. simpl.
  destruct (truthy (dict_get cfg "model" VNone)) eqn:Hm; [|discriminate].
  simpl.
  destruct (os_path_isfile env (dict_get cfg "model" VNone)) as [[|]|] eqn:Hmf;
    try discriminate. simpl.
  destruct (os_path_isfile env (dict_get cfg "labels" VNone)) as [[|]|] eqn:Hlf;
    try discriminate. simpl.
  destruct (DetectionEngine env (dict_get cfg "model" VNone)) as [eng|] eqn:Heng;
    try discriminate. simpl.
  destruct (open_read env (dict_get cfg "labels" VNone)) as [text|] eqn:Hread;
    try discriminate. simpl.
  destruct (labels_of_lines (readlines text) ∅) as [lbls|] eqn:Hlines;
    try discriminate. simpl.
  intros H. injection H as <- <-. simpl.
  exists cfg, text. repeat split; auto.
Qed.

(** A stage that has just been constructed has no next element. *)
Lemma init_unwired (ocfg : option (gmap string Value)) (w w' : World)
    (a : AiInference Engine) :
  AiInference_init env ocfg w = (Return a, w') -> next_element (base a) = None.
Proof.
  intros H. apply init_inversion in H as (cfg & text & _ & _ & _ & _ & _ & _ & _ & -> & _).
  reflexivity.
Qed.

End Construction.

Lemma set_next_wires {Engine : Type} (a : AiInference Engine) (b : Ref) :
  next_element (base (set_next a b)) = Some b.
Proof. reflexivity. Qed.

(** ** What every call does, whatever the collaborators answer *)

Section Calls.

Context {Image Objs Engine : Type}.
Variable env : Env Image Objs Engine.

Local Abbreviation St := (St Image Objs Engine).
Local Abbreviation Event := (Event Image Objs Engine).

(** A call reads the clock, logs, calls the engine once with the arguments
    of [prologue], and changes nothing of the object but [last_time]. *)
Lemma run_shape (st : St) (image : Image) :
  exists o t t_last tail,
    receive_next_sample env image st
    = (o, after st t t_last (prologue st image ++ tail))
    /\ detect_calls tail = [].
Proof.
  destruct (engine_answer env st image) as [objs|e] eqn:Hans.
  - destruct (PrimFloat.eqb (end_of env st - last_time (self st)) 0) eqn:Hz.
    + eexists _, _, _, _. split; [by apply run_zero_elapsed with objs|done].
    + destruct (next_element (base (self st))) as [b|] eqn:Hnext.
      * eexists _, _, _, _. split; [by apply run_forwarding|done].
      * eexists _, _, _, _. split; [by apply run_terminal with objs|done].
  - eexists _, _, _, []. rewrite app_nil_r. split; [by apply run_engine_raises|done].
Qed.

Lemma detect_calls_app (xs ys : list Event) :
  detect_calls (xs ++ ys) = detect_calls xs ++ detect_calls ys.
Proof.
  induction xs as [|[] xs IH]; simpl; try done. by rewrite IH.
Qed.

Lemma forwards_app (xs ys : list Event) :
  forwards (xs ++ ys) = forwards xs ++ forwards ys.
Proof.
  induction xs as [|[] xs IH]; simpl; try done. by rewrite IH.
Qed.

Lemma receive_keeps_settings (st : St) (image : Image) :
  settings (self (snd (receive_next_sample env image st))) = settings (self st).
Proof.
  destruct (run_shape st image) as (o & t & tl & tail & -> & _). reflexivity.
Qed.

Lemma run_calls_keeps_settings (images : list Image) (st : St) :
  settings (self (run_calls env images st)) = settings (self st).
Proof.
  revert st. induction images as [|image rest IH]; intros st; simpl; [done|].
  by rewrite IH, receive_keeps_settings.
Qed.

End Calls.

(** ** The pipe element contract of [receive_next_sample] *)

Section Forwarding.

Context {Image Objs Engine : Type}.
Variable env : Env Image Objs Engine.

Local Abbreviation St := (St Image Objs Engine).

(** What a call that produces its output logs, forwards and stores. *)
Lemma call_diagnostics (s : St) (im : Image) (ob : Objs) :
  engine_answer env s im = Return ob ->
  PrimFloat.eqb (end_of env s - last_time (self s)) 0 = false ->
  In (EvLog inf_info
        [VFloat ((end_of env s - start_of env s) * 1000)%float;
         VFloat (1 / (end_of env s - last_time (self s)))%float])
     (events_since (world s) (snd (receive_next_sample env im s)))
  /\ (forall b sample,
        In (b, sample)
           (forwards (events_since (world s) (snd (receive_next_sample env im s)))) ->
        sample_text_lines sample
        = format_inf_info ((end_of env s - start_of env s) * 1000)%float
            (1 / (end_of env s - last_time (self s)))%float)
  /\ last_time (self (snd (receive_next_sample env im s))) = end_of env s.
Proof.
  intros Ha Hnz.
  destruct (next_element (base (self s))) as [b|] eqn:Hnext.
  - rewrite (run_forwarding env s im ob b Ha Hnz Hnext). simpl.
    rewrite events_since_after. split; [|split; [|done]].
    + simpl. right. right. right. right. by left.
    + intros b' sample [Heq|[]]. by injection Heq as _ <-.
  - rewrite (run_terminal env s im ob Ha Hnz Hnext). simpl.
    rewrite events_since_after. split; [|split; [|done]].
    + simpl. right. right. right. right. by left.
    + intros b' sample [].
Qed.

(** C1: chain forwarding.  Take a call [A.receive_next_sample(image)] in
    which the stage produces its output: the engine answers [objs] and the
    time elapsed since [last_time] is not zero.  If A is wired to B (its
    next element is [Some b], as [set_next] leaves it), the call makes
    exactly one call to B's [receive_next_sample], with the sample A
    produced, and ends as that call ends.  If A has no next element, the
    call returns normally and forwards nothing. *)
Theorem chain_forwarding (st : St) (image : Image) (objs : Objs) (next : option Ref) :
  engine_answer env st image = Return objs ->
  PrimFloat.eqb (end_of env st - last_time (self st)) 0 = false ->
  next_element (base (self st)) = next ->
  let r := receive_next_sample env image st in
  match next with
  | Some b =>
      forwards (events_since (world st) (snd r)) = [(b, produced env st objs)]
      /\ fst r = next_receive_next_sample env (2 + ticks (world st)) b
                   (produced env st objs)
  | None =>
      forwards (events_since (world st) (snd r)) = [] /\ fst r = Return tt
  end.
Proof.
  intros Hans Hz Hnext r. subst r. destruct next as [b|].
  - rewrite (run_forwarding env st image objs b Hans Hz Hnext). simpl.
    by rewrite events_since_after.
  - rewrite (run_terminal env st image objs Hans Hz Hnext). simpl.
    by rewrite events_since_after.
Qed.

(** C2: when the engine raises on the image, [receive_next_sample] raises
    the very same exception to its caller and the next element is not
    called. *)
Theorem engine_exception_propagates (st : St) (image : Image) (e : PyExn) :
  engine_answer env st image = Raise e ->
  let r := receive_next_sample env image st in
  fst r = Raise e /\ forwards (events_since (world st) (snd r)) = [].
Proof.
  intros Hans r. subst r. rewrite (run_engine_raises env st image e Hans). simpl.
  by rewrite events_since_after.
Qed.

(** C3: timing.  In a call whose engine call starts at [start], ends at
    [end] and returns, with [last] the stored [last_time] and [end - last]
    not zero, the stage logs (and puts in the text it forwards)
    [inf_time = (end - start) * 1000] and [fps = 1 / (end - last)], and
    stores [end] as [last_time]; so the next such call on the same stage
    divides by the time since this call's [end]. *)
Theorem timing_diagnostics (st : St) (image : Image) (objs : Objs) :
  engine_answer env st image = Return objs ->
  PrimFloat.eqb (end_of env st - last_time (self st)) 0 = false ->
  let r := receive_next_sample env image st in
  let inf_time := ((end_of env st - start_of env st) * 1000)%float in
  let fps := (1 / (end_of env st - last_time (self st)))%float in
  In (EvLog inf_info [VFloat inf_time; VFloat fps]) (events_since (world st) (snd r))
  /\ (forall b sample, In (b, sample) (forwards (events_since (world st) (snd r))) ->
      sample_text_lines sample = format_inf_info inf_time fps)
  /\ last_time (self (snd r)) = end_of env st
  /\ (forall image' objs',
        engine_answer env (snd r) image' = Return objs' ->
        PrimFloat.eqb (end_of env (snd r) - end_of env st) 0 = false ->
        In (EvLog inf_info
              [VFloat ((end_of env (snd r) - start_of env (snd r)) * 1000)%float;
               VFloat (1 / (end_of env (snd r) - end_of env st))%float])
           (events_since (world (snd r))
              (snd (receive_next_sample env image' (snd r))))).
Proof.
  intros Hans Hz r inf_time fps.
  destruct (call_diagnostics st image objs Hans Hz) as (H1 & H2 & H3).
  split; [exact H1|]. split; [exact H2|]. split; [exact H3|].
  intros image' objs' Hans' Hz'. fold r in H3.
  rewrite <- H3 in Hz'.
  destruct (call_diagnostics (snd r) image' objs' Hans' Hz') as (H1' & _).
  by rewrite H3 in H1'.
Qed.

(** C10: a call in which the engine raises leaves the stage object as it
    was, [last_time] included; a later call in which the engine answers
    computes its fps from the [last_time] stored before the failed call. *)
Theorem engine_failure_keeps_last_time (st : St) (image : Image) (e : PyExn) :
  engine_answer env st image = Raise e ->
  let st' := snd (receive_next_sample env image st) in
  self st' = self st
  /\ last_time (self st') = last_time (self st)
  /\ (forall image' objs',
        engine_answer env st' image' = Return objs' ->
        PrimFloat.eqb (end_of env st' - last_time (self st)) 0 = false ->
        In (EvLog inf_info
              [VFloat ((end_of env st' - start_of env st') * 1000)%float;
               VFloat (1 / (end_of env st' - last_time (self st)))%float])
           (events_since (world st') (snd (receive_next_sample env image' st')))).
Proof.
  intros Hans st'. subst st'.
  rewrite (run_engine_raises env st image e Hans). simpl.
  rewrite set_last_time_same. split; [done|]. split; [done|].
  set (st' := after st 1 (last_time (self st)) (prologue st image)).
  assert (Hself : last_time (self st') = last_time (self st)) by done.
  intros image' objs' Hans' Hz'. rewrite <- Hself in Hz' |- *.
  by destruct (call_diagnostics st' image' objs' Hans' Hz') as (H & _).
Qed.

End Forwarding.

(** ** The engine call and the construction *)

Section Configuration.

Context {Image Objs Engine : Type}.
Variable env : Env Image Objs Engine.

Local Abbreviation St := (St Image Objs Engine).
Local Abbreviation World := (World Image Objs Engine).

Lemma wire_keeps_settings (a : AiInference Engine) (link : option Ref) :
  settings (wire a link) = settings a.
Proof. by destruct link. Qed.

(** C7 (amended): every call on a stage constructed from [cfg], wired or
    not and whatever was received before, calls the engine exactly once,
    with the image, the threshold of the configuration (0.6 when it has
    none), keep_aspect_ratio and relative_coord set, and the constant
    top_k 3. *)
Theorem detect_call_arguments (cfg : gmap string Value) (w w' w0 : World)
    (a : AiInference Engine) (link : option Ref) (history : list Image)
    (image : Image) :
  AiInference_init env (Some cfg) w = (Return a, w') ->
  let st := run_calls env history {| self := wire a link; world := w0 |} in
  detect_calls (events_since (world st) (snd (receive_next_sample env image st)))
  = [EvDetect (engine a) image (dict_get cfg "confidence_threshold" (VFloat 0.6))
       true true 3].
Proof.
  intros Hinit st.
  apply init_inversion in Hinit
    as (cfg' & text & [= <-] & _ & _ & _ & _ & _ & _ & Ha & _).
  assert (Hset : settings (self st) = (engine a, dict_get cfg "confidence_threshold" (VFloat 0.6))).
  { subst st. rewrite run_calls_keeps_settings. simpl. rewrite wire_keeps_settings.
    rewrite Ha at 1. reflexivity. }
  destruct (run_shape env st image) as (o & t & tl & tail & -> & Htail).
  cbn [snd]. rewrite events_since_after, detect_calls_app, Htail.
  unfold settings in Hset. injection Hset as <- <-. reflexivity.
Qed.

(** C8: construction stores the reading of the clock it takes as
    [last_time]; in the first call, whenever it comes, the fps is
    [1.0 / (end - that reading)]: the quotient is logged, or the division
    raises because the difference is zero. *)
Theorem last_time_initialised (ocfg : option (gmap string Value)) (w w' w1 : World)
    (a : AiInference Engine) (link : option Ref) (image : Image) (objs : Objs) :
  AiInference_init env ocfg w = (Return a, w') ->
  let st := {| self := wire a link; world := w1 |} in
  engine_answer env st image = Return objs ->
  let r := receive_next_sample env image st in
  last_time a = monotonic env (ticks w)
  /\ match float_truediv 1 (end_of env st - monotonic env (ticks w)) with
     | Return fps =>
         In (EvLog inf_info
               [VFloat ((end_of env st - start_of env st) * 1000)%float; VFloat fps])
            (events_since w1 (snd r))
     | Raise e => fst r = Raise e
     end.
Proof.
  intros Hinit st Hans r.
  apply init_inversion in Hinit
    as (cfg & text & _ & _ & _ & _ & _ & _ & _ & Ha & _).
  assert (Hlast : last_time (self st) = monotonic env (ticks w)).
  { subst st. simpl. destruct link; simpl; rewrite Ha; reflexivity. }
  split; [rewrite Ha; reflexivity|].
  rewrite <- Hlast. unfold float_truediv.
  destruct (PrimFloat.eqb (end_of env st - last_time (self st)) 0) eqn:Hz.
  - subst r. by rewrite (run_zero_elapsed env st image objs Hans Hz).
  - by destruct (call_diagnostics env st image objs Hans Hz) as (H & _).
Qed.

(** C6: construction fails fast.  A configuration whose model is missing
    or empty (any false value) fails the first assertion; a labels path
    that is not an existing file lets no construction complete, and fails
    the third assertion once the model passed the first two.  Python has
    one exception for the failures the specification names
    ConfigurationError and MissingFileError: [AssertionError], with two
    messages. *)
Theorem construction_fails_fast (cfg : gmap string Value) (w : World) :
  (truthy (dict_get cfg "model" VNone) = false ->
   AiInference_init env (Some cfg) w
   = (Raise (AssertionError "pipeline element ai: requires argument model:" None), w))
  /\ (os_path_isfile env (dict_get cfg "labels" VNone) = Return false ->
      exists e,
        AiInference_init env (Some cfg) w = (Raise e, w)
        /\ (truthy (dict_get cfg "model" VNone) = true ->
            os_path_isfile env (dict_get cfg "model" VNone) = Return true ->
            e = AssertionError "AI model labels file does not exist: {}"
                  (Some (dict_get cfg "labels" VNone)))).
Proof.
  destruct w as [t tr]. split.
  - intros Hm. unfold AiInference_init, bind, ret, py_assert. simpl. by rewrite Hm.
  - intros Hlf.
    unfold AiInference_init, bind, ret, py_assert, lift_outcome, raise. simpl.
    destruct (truthy (dict_get cfg "model" VNone)) eqn:Hm; simpl.
    + destruct (os_path_isfile env (dict_get cfg "model" VNone)) as [[|]|e] eqn:Hmf;
        simpl.
      * rewrite Hlf. simpl. eexists. split; [reflexivity|done].
      * eexists. split; [reflexivity|]. intros _ [=].
      * eexists. split; [reflexivity|]. intros _ [=].
    + eexists. split; [reflexivity|]. intros [=].
Qed.

Lemma missing_model_is_false (cfg : gmap string Value) :
  cfg !! "model" = None -> truthy (dict_get cfg "model" VNone) = false.
Proof. intros H. unfold dict_get. by rewrite H. Qed.

Lemma empty_model_is_false (cfg : gmap string Value) :
  cfg !! "model" = Some (VStr "") -> truthy (dict_get cfg "model" VNone) = false.
Proof. intros H. unfold dict_get. by rewrite H. Qed.

End Configuration.

(** C7 (counterexample): a stage constructed with [top_k] 5 in its
    configuration calls the engine with [top_k=3], not with the configured
    cutoff. *)
Lemma top_k_is_not_configured :
  exists a w',
    AiInference_init Bench.env (Some Bench.cfg_top5) Bench.world0 = (Return a, w')
    /\ exists ev,
        detect_calls
          (events_since w' (snd (receive_next_sample Bench.env "frame"
                                   {| self := a; world := w' |}))) = [ev]
        /\ ~ Spec.claimed_detect_call Bench.cfg_top5 (engine a) "frame" ev.
Proof.
  eexists _, _. split; [vm_compute; reflexivity|].
  eexists. split; [vm_compute; reflexivity|].
  intros (k & Hk & Hev). vm_compute in Hk. injection Hk as <-.
  discriminate Hev.
Qed.

(** ** The matcher *)

Module ReFacts.

Import Re.
Local Open Scope nat_scope.

Lemma first_down_top {X : Type} (f : nat -> option X) (n : nat) (x : X) :
  f n = Some x -> first_down f n = Some x.
Proof. intros H. destruct n; simpl; by rewrite H. Qed.

Lemma first_down_inv {X : Type} (f : nat -> option X) (n : nat) (x : X) :
  first_down f n = Some x -> exists m, m <= n /\ f m = Some x.
Proof.
  induction n as [|n IH]; simpl.
  - destruct (f 0) eqn:H0; [|done]. intros [= ->]. exists 0. by split.
  - destruct (f (S n)) eqn:HS.
    + intros [= ->]. exists (S n). by split.
    + intros H. destruct (IH H) as (m & Hm & Hf). exists m. split; [lia|done].
Qed.

Lemma first_down_none {X : Type} (f : nat -> option X) (n : nat) :
  (forall m, m <= n -> f m = None) -> first_down f n = None.
Proof.
  induction n as [|n IH]; intros H; simpl.
  - by rewrite (H 0).
  - rewrite (H (S n)) by lia. apply IH. intros m Hm. apply H. lia.
Qed.

Lemma rmatch_cons_inv (it : Item) (p : list Item) (s : list ascii)
    (gs : list (list ascii)) :
  rmatch (it :: p) s = Some gs ->
  exists n gs',
    item_min it <= n <= run_length (item_class it) s
    /\ rmatch p (drop n s) = Some gs'
    /\ gs = if item_group it then take n s :: gs' else gs'.
Proof.
  simpl. intros H. apply first_down_inv in H as (n & Hn & Hf).
  destruct (item_min it <=? n) eqn:Hmin; [|done].
  apply Nat.leb_le in Hmin.
  destruct (rmatch p (drop n s)) as [gs'|] eqn:Hrest; [|done].
  injection Hf as <-. exists n, gs'. repeat split; auto.
Qed.

Lemma rmatch_cons_greedy (it : Item) (p : list Item) (s : list ascii)
    (gs' : list (list ascii)) :
  item_min it <= run_length (item_class it) s ->
  rmatch p (drop (run_length (item_class it) s) s) = Some gs' ->
  rmatch (it :: p) s
  = Some (if item_group it then take (run_length (item_class it) s) s :: gs' else gs').
Proof.
  intros Hmin Hrest. simpl. apply first_down_top.
  apply Nat.leb_le in Hmin. by rewrite Hmin, Hrest.
Qed.

Lemma rmatch_cons_short (it : Item) (p : list Item) (s : list ascii) :
  run_length (item_class it) s < item_min it -> rmatch (it :: p) s = None.
Proof.
  intros Hlt. simpl. apply first_down_none. intros m Hm.
  destruct (item_min it <=? m) eqn:Hmin; [|done]. apply Nat.leb_le in Hmin. lia.
Qed.

(** A starred class that finds nothing to take is skipped. *)
Lemma rmatch_star_nothing (k : CharClass) (p : list Item) (s : list ascii) :
  run_length k s = 0 -> rmatch (star k :: p) s = rmatch p s.
Proof.
  intros H. cbn [rmatch star item_min item_class item_group]. rewrite H.
  cbn [first_down Nat.leb]. change (drop 0 s) with s. by destruct (rmatch p s).
Qed.

(** The last item of a pattern takes all it can. *)
Lemma rmatch_last (it : Item) (s : list ascii) :
  rmatch [it] s
  = if item_min it <=? run_length (item_class it) s
    then Some (if item_group it then [take (run_length (item_class it) s) s] else [])
    else None.
Proof.
  destruct (item_min it <=? run_length (item_class it) s) eqn:Hmin.
  - apply Nat.leb_le in Hmin. by apply rmatch_cons_greedy.
  - apply Nat.leb_gt in Hmin. by apply rmatch_cons_short.
Qed.

Lemma run_length_le (k : CharClass) (s : list ascii) : run_length k s <= length s.
Proof. induction s as [|c s IH]; simpl; [done|]. destruct (in_class k c); simpl; lia. Qed.

Lemma run_within (k : CharClass) (s : list ascii) (n : nat) :
  n < run_length k s ->
  exists c s', drop n s = c :: s' /\ in_class k c = true.
Proof.
  revert n. induction s as [|c s IH]; intros n; simpl; [lia|].
  destruct (in_class k c) eqn:Hc; [|lia]. intros Hn.
  destruct n as [|n]; simpl.
  - by exists c, s.
  - apply IH. lia.
Qed.

Lemma run_take (k : CharClass) (s : list ascii) (n : nat) :
  n <= run_length k s -> Forall (fun c => in_class k c = true) (take n s).
Proof.
  revert n. induction s as [|c s IH]; intros n; simpl.
  - intros _. rewrite take_nil. constructor.
  - destruct n as [|n]; simpl; [constructor|].
    destruct (in_class k c) eqn:Hc; [|lia]. intros Hn.
    constructor; [done|]. apply IH. lia.
Qed.

Lemma run_stops (k : CharClass) (c : ascii) (s : list ascii) :
  in_class k c = false -> run_length k (c :: s) = 0.
Proof. intros H. simpl. by rewrite H. Qed.

Lemma space_is_no_digit (c : ascii) :
  PyStr.isspace c = true -> PyStr.isdecimal c = false.
Proof. by destruct c as [[] [] [] [] [] [] [] []]. Qed.

Lemma is_LF_eq (c : ascii) : PyStr.is_LF c = true -> c = PyStr.LF.
Proof. by destruct c as [[] [] [] [] [] [] [] []]. Qed.

End ReFacts.

(** ** The lines of a file *)

Module LineFacts.

Import Re ReFacts.
Local Open Scope nat_scope.

Lemma newline_only_last_tail (c : ascii) (s : list ascii) :
  newline_only_last (c :: s) -> newline_only_last s.
Proof.
  intros H i d Hi Hd. specialize (H (S i) d Hi Hd). simpl in H. lia.
Qed.

Lemma newline_only_last_head (c : ascii) (s : list ascii) :
  newline_only_last (c :: s) -> s <> [] -> is_LF c = false.
Proof.
  intros H Hs. destruct (is_LF c) eqn:Hc; [|done].
  specialize (H 0 c eq_refl Hc). destruct s; [done|]. simpl in H. lia.
Qed.

Lemma newline_only_last_drop (n : nat) (s : list ascii) :
  newline_only_last s -> newline_only_last (drop n s).
Proof.
  revert s. induction n as [|n IH]; intros s H; [done|].
  destruct s as [|c s]; [done|]. simpl. apply IH.
  by apply newline_only_last_tail with c.
Qed.

(** Before its last character a line has nothing that stops [.]. *)
Lemma dot_run_skip (n : nat) (s : list ascii) :
  newline_only_last s -> n < length s ->
  run_length Dot s = n + run_length Dot (drop n s).
Proof.
  revert s. induction n as [|n IH]; intros s Hs Hn; [done|].
  destruct s as [|c s]; [simpl in Hn; lia|]. simpl in Hn.
  assert (Hne : s <> []) by (destruct s; [simpl in Hn; lia|done]).
  cbn [run_length in_class drop].
  rewrite (newline_only_last_head c s Hs Hne). cbn [negb].
  rewrite (IH s); [lia| |lia]. by apply newline_only_last_tail with c.
Qed.

Lemma split_keepends_newlines (s : list ascii) :
  Forall newline_only_last (split_keepends s).
Proof.
  induction s as [|c s IH]; simpl; [constructor|].
  destruct (is_LF c) eqn:Hc.
  - constructor; [|done]. intros [|i] d Hi Hd; [done|]. by destruct i.
  - destruct (split_keepends s) as [|l ls]; constructor.
    + intros [|i] d Hi Hd; [|by destruct i].
      injection Hi as ->. congruence.
    + constructor.
    + apply Forall_cons in IH as [Hl _].
      intros [|i] d Hi Hd.
      * injection Hi as ->. congruence.
      * simpl. f_equal. by apply (Hl i d).
    + by apply Forall_cons in IH as [_ Hls].
Qed.

Lemma readlines_newlines (text : list ascii) :
  Forall newline_only_last (readlines text).
Proof. apply split_keepends_newlines. Qed.

Lemma lstrip_spaces (w t : list ascii) :
  Forall (fun c => isspace c = true) w -> lstrip (w ++ t) = lstrip t.
Proof.
  induction 1 as [|c w Hc _ IH]; [done|]. simpl. by rewrite Hc.
Qed.

Lemma strip_spaces (w t : list ascii) :
  Forall (fun c => isspace c = true) w -> strip (w ++ t) = strip t.
Proof. intros H. unfold strip. by rewrite lstrip_spaces. Qed.

(** [p] always captures two groups. *)
Lemma p_groups (line : list ascii) (gs : list (list ascii)) :
  rmatch p line = Some gs -> exists num text, gs = [num; text].
Proof.
  intros H. unfold p in H.
  apply rmatch_cons_inv in H as (n0 & gs0 & _ & H & ->).
  apply rmatch_cons_inv in H as (n1 & gs1 & _ & H & ->).
  apply rmatch_cons_inv in H as (n2 & gs2 & _ & H & ->).
  simpl in H. injection H as <-. simpl. eauto.
Qed.

(** On a line of a file, where the specification's pattern finds an
    identifier and a label, the pattern of the program finds the same
    identifier, and the label with the whitespace before it. *)
Lemma p_agrees_with_spec (line num text : list ascii) :
  newline_only_last line ->
  rmatch Spec.line_pattern line = Some [num; text] ->
  exists w,
    Forall (fun c => isspace c = true) w
    /\ rmatch p line = Some [num; w ++ text].
Proof.
  intros Hline H. unfold Spec.line_pattern in H.
  apply rmatch_cons_inv in H as (n1 & gs1 & [Hn1 Hn1'] & H & Hgs1).
  apply rmatch_cons_inv in H as (n2 & gs2 & [Hn2 Hn2'] & H & Hgs2).
  rewrite rmatch_last in H.
  cbn [group_plus plus item_min item_class item_group] in *.
  set (s2 := drop n1 line) in *. set (s3 := drop n2 s2) in *.
  destruct (1 <=? run_length Dot s3) eqn:Hn3; [|done].
  apply Nat.leb_le in Hn3. injection H as <-. subst gs1.
  injection Hgs1 as -> ->.
  (* the digits of the identifier are all the digits there are *)
  assert (Hrun1 : run_length Digit line = n1).
  { destruct (Nat.eq_dec (run_length Digit line) n1) as [|Hne]; [done|].
    destruct (run_within Digit line n1) as (c & s' & Hc & Hd); [lia|].
    destruct (run_within Space s2 0) as (c' & s'' & Hc' & Hsp); [lia|].
    simpl in Hc'. fold s2 in Hc. rewrite Hc in Hc'. injection Hc' as <- <-.
    simpl in Hd, Hsp. apply space_is_no_digit in Hsp. congruence. }
  (* the line starts with a digit, so [\s*] takes nothing *)
  assert (Hrun0 : run_length Space line = 0).
  { destruct (run_within Digit line 0) as (c & s' & Hc & Hd); [lia|].
    change (drop 0 line) with line in Hc. rewrite Hc. apply run_stops.
    simpl in Hd |- *.
    destruct (isspace c) eqn:Hsp; [|done]. apply space_is_no_digit in Hsp. congruence. }
  (* [.+] then runs from the whitespace to the end of the label *)
  assert (Hlen3 : 1 <= length s3) by (pose proof (run_length_le Dot s3); lia).
  assert (Hlen2 : n2 < length s2).
  { unfold s3 in Hlen3. rewrite length_drop in Hlen3. lia. }
  assert (Hs2 : newline_only_last s2) by by apply newline_only_last_drop.
  assert (Hdot2 : run_length Dot s2 = n2 + run_length Dot s3).
  { by apply dot_run_skip. }
  exists (take n2 s2). split.
  { apply (run_take Space s2 n2 Hn2'). }
  unfold p.
  rewrite (rmatch_star_nothing Space _ line Hrun0).
  rewrite (rmatch_cons_greedy (group_plus Digit) [group_plus Dot] line
             [take n2 s2 ++ take (run_length Dot s3) s3]).
  - cbn [group_plus item_group item_class]. by rewrite Hrun1.
  - cbn [group_plus item_min item_class]. lia.
  - cbn [group_plus item_class]. rewrite Hrun1. fold s2.
    rewrite rmatch_last. cbn [group_plus item_min item_class item_group].
    rewrite Hdot2.
    assert (Hle : (1 <=? n2 + run_length Dot s3) = true) by (apply Nat.leb_le; lia).
    rewrite Hle. by rewrite <- take_take_drop.
Qed.

End LineFacts.

(** ** [load_labels] and the mapping of the specification *)

Module LabelFacts.

Import Re ReFacts LineFacts.

Lemma spec_groups (line : list ascii) (gs : list (list ascii)) :
  rmatch Spec.line_pattern line = Some gs -> exists num text, gs = [num; text].
Proof.
  intros H. unfold Spec.line_pattern in H.
  apply rmatch_cons_inv in H as (n0 & gs0 & _ & H & ->).
  apply rmatch_cons_inv in H as (n1 & gs1 & _ & H & ->).
  apply rmatch_cons_inv in H as (n2 & gs2 & _ & H & ->).
  simpl in H. injection H as <-. simpl. eauto.
Qed.

(** One well-formed line: the program adds the entry of the
    specification. *)
Lemma well_formed_line_entry (line : list ascii) :
  newline_only_last line ->
  Spec.line_matches line = true ->
  exists num text k v,
    rmatch p line = Some [num; text]
    /\ Spec.entry line = Some (k, v)
    /\ int num = k /\ strip text = v.
Proof.
  intros Hline Hm. unfold Spec.line_matches in Hm.
  destruct (rmatch Spec.line_pattern line) as [gs|] eqn:Hspec; [|done].
  destruct (spec_groups line gs Hspec) as (num & text & ->).
  destruct (p_agrees_with_spec line num text Hline Hspec) as (w & Hw & Hp).
  exists num, (w ++ text), (int num), (strip text).
  split; [done|]. split; [|split; [done|by apply strip_spaces]].
  unfold Spec.entry. by rewrite Hspec.
Qed.

Lemma labels_of_well_formed_lines (lines : list (list ascii))
    (acc : gmap Z (list ascii)) :
  Forall newline_only_last lines ->
  Forall (fun line => Spec.line_matches line = true) lines ->
  labels_of_lines lines acc = Return (fold_left Spec.add_line lines acc).
Proof.
  intros Hshape. revert acc.
  induction Hshape as [|line lines Hline _ IH]; intros acc Hwf; [done|].
  apply Forall_cons in Hwf as [Hm Hwf].
  destruct (well_formed_line_entry line Hline Hm)
    as (num & text & k & v & Hp & Hentry & <- & <-).
  cbn [labels_of_lines]. rewrite Hp. cbn [fold_left]. rewrite (IH _ Hwf).
  assert (Hadd : Spec.add_line acc line = <[int num := strip text]> acc).
  { unfold Spec.add_line. by rewrite Hentry. }
  by rewrite Hadd.
Qed.

(** A line that [p] does not match makes the comprehension raise, wherever
    the line is. *)
Lemma labels_of_lines_unmatched (lines : list (list ascii))
    (acc : gmap Z (list ascii)) :
  Exists (fun line => rmatch p line = None) lines ->
  labels_of_lines lines acc
  = Raise (AttributeError "'NoneType' object has no attribute 'groups'").
Proof.
  intros H. revert acc. induction lines as [|line lines IH]; intros acc.
  - by apply Exists_nil in H.
  - cbn [labels_of_lines]. destruct (rmatch p line) as [gs|] eqn:Hp; [|done].
    destruct (p_groups line gs Hp) as (num & text & ->).
    apply IH. apply Exists_cons in H as [H|H]; [congruence|done].
Qed.

(** And only such a line does. *)
Lemma labels_of_lines_matched (lines : list (list ascii))
    (acc : gmap Z (list ascii)) :
  Forall (fun line => rmatch p line <> None) lines ->
  exists m, labels_of_lines lines acc = Return m.
Proof.
  intros H. revert acc. induction H as [|line lines Hline _ IH]; intros acc.
  - by exists acc.
  - cbn [labels_of_lines]. destruct (rmatch p line) as [gs|] eqn:Hp; [|done].
    destruct (p_groups line gs Hp) as (num & text & ->). apply IH.
Qed.

Lemma mapping_keeps (lines : list (list ascii)) (acc : gmap Z (list ascii)) (k : Z) :
  is_Some (acc !! k) -> is_Some (fold_left Spec.add_line lines acc !! k).
Proof.
  revert acc. induction lines as [|line lines IH]; intros acc Hacc; [done|].
  simpl. apply IH. unfold Spec.add_line.
  destruct (Spec.entry line) as [[k' v']|]; [|done].
  destruct (decide (k' = k)) as [->|Hne].
  - rewrite lookup_insert_eq. eauto.
  - by rewrite lookup_insert_ne.
Qed.

Lemma mapping_has (lines : list (list ascii)) (acc : gmap Z (list ascii))
    (line : list ascii) (k : Z) (v : list ascii) :
  line ∈ lines -> Spec.entry line = Some (k, v) ->
  is_Some (fold_left Spec.add_line lines acc !! k).
Proof.
  intros Hin Hentry. revert acc.
  induction Hin as [line lines|line line' lines _ IH]; intros acc; simpl.
  - apply mapping_keeps. unfold Spec.add_line. rewrite Hentry.
    rewrite lookup_insert_eq. eauto.
  - by apply IH.
Qed.

Lemma mapping_from (lines : list (list ascii)) (acc : gmap Z (list ascii))
    (k : Z) (v : list ascii) :
  fold_left Spec.add_line lines acc !! k = Some v ->
  acc !! k = Some v
  \/ exists line, line ∈ lines /\ Spec.entry line = Some (k, v).
Proof.
  revert acc. induction lines as [|line lines IH]; intros acc H; [by left|].
  simpl in H. destruct (IH _ H) as [Hacc|(line' & Hin & Hentry)].
  - unfold Spec.add_line in Hacc.
    destruct (Spec.entry line) as [[k' v']|] eqn:Hentry; [|by left].
    destruct (decide (k' = k)) as [->|Hne].
    + rewrite lookup_insert_eq in Hacc. injection Hacc as ->.
      right. exists line. split; [left|done].
    + rewrite lookup_insert_ne in Hacc by done. by left.
  - right. exists line'. split; [by right|done].
Qed.

End LabelFacts.

(** ** Construction and the labels file *)

Section Labels.

Context {Image Objs Engine : Type}.

Local Abbreviation Env := (Env Image Objs Engine).
Local Abbreviation World := (World Image Objs Engine).

(** C4: a valid configuration constructs a stage.  When the model entry is
    a non-empty path of an existing file that the engine loads, and the
    labels entry is the path of an existing file whose every line matches
    [\d+\s+.+], construction returns a stage; its label mapping is the
    mapping of the specification: its keys are exactly the identifiers of
    the lines, and each is mapped to the trimmed label of a line that
    carries it (the last one, if several do).  The threshold and top_k of
    the configuration play no part. *)
Theorem valid_configuration_constructs (env : Env) (cfg : gmap string Value)
    (w : World) (eng : Engine) (text : list ascii) :
  truthy (dict_get cfg "model" VNone) = true ->
  os_path_isfile env (dict_get cfg "model" VNone) = Return true ->
  DetectionEngine env (dict_get cfg "model" VNone) = Return eng ->
  os_path_isfile env (dict_get cfg "labels" VNone) = Return true ->
  open_read env (dict_get cfg "labels" VNone) = Return text ->
  Forall (fun line => Spec.line_matches line = true) (readlines text) ->
  exists a w',
    AiInference_init env (Some cfg) w = (Return a, w')
    /\ labels a = Spec.mapping (readlines text)
    /\ (forall k : Z,
          is_Some (labels a !! k)
          <-> exists line v, line ∈ readlines text /\ Spec.entry line = Some (k, v))
    /\ (forall (k : Z) (v : list ascii),
          labels a !! k = Some v ->
          exists line, line ∈ readlines text /\ Spec.entry line = Some (k, v)).
Proof.
  intros Hm Hmf Heng Hlf Hread Hwf.
  pose proof (LabelFacts.labels_of_well_formed_lines (readlines text) ∅
                (LineFacts.readlines_newlines text) Hwf) as Hlines.
  eexists _, _. split.
  { by apply init_returns with text. }
  cbn [labels constructed]. fold (Spec.mapping (readlines text)).
  split; [done|]. split.
  - intros k. split.
    + intros [v Hv]. unfold Spec.mapping in Hv.
      apply LabelFacts.mapping_from in Hv as [Hv|(line & Hin & He)]; [done|].
      by exists line, v.
    + intros (line & v & Hin & He). by apply LabelFacts.mapping_has with line v.
  - intros k v Hv. unfold Spec.mapping in Hv.
    by apply LabelFacts.mapping_from in Hv as [Hv|Hv].
Qed.

(** C5 (amended): when a line of the labels file is not matched by the
    pattern of the program, [\s*(\d+)(.+)], [load_labels] raises the
    [AttributeError] of [None.groups()] wherever the line is, first, in the
    middle or last; no construction returns a stage, and a construction
    that reaches [load_labels] ends with that exception. *)
Theorem unmatched_line_fails_construction (env : Env) (cfg : gmap string Value)
    (w : World) (text : list ascii) :
  open_read env (dict_get cfg "labels" VNone) = Return text ->
  Exists (fun line => Re.rmatch p line = None) (readlines text) ->
  load_labels env (dict_get cfg "labels" VNone) w
  = (Raise (AttributeError "'NoneType' object has no attribute 'groups'"), w)
  /\ (exists e, fst (AiInference_init env (Some cfg) w) = Raise e)
  /\ (truthy (dict_get cfg "model" VNone) = true ->
      os_path_isfile env (dict_get cfg "model" VNone) = Return true ->
      os_path_isfile env (dict_get cfg "labels" VNone) = Return true ->
      (exists eng, DetectionEngine env (dict_get cfg "model" VNone) = Return eng) ->
      fst (AiInference_init env (Some cfg) w)
      = Raise (AttributeError "'NoneType' object has no attribute 'groups'")).
Proof.
  intros Hread Hbad.
  pose proof (LabelFacts.labels_of_lines_unmatched (readlines text) ∅ Hbad) as Hlines.
  split; [|split].
  - unfold load_labels, bind, lift_outcome. by rewrite Hread, Hlines.
  - destruct (AiInference_init env (Some cfg) w) as [[a|e] w'] eqn:Hinit; [|by exists e].
    apply init_inversion in Hinit
      as (cfg' & text' & [= <-] & _ & _ & _ & _ & Hread' & Hlines' & _).
    rewrite Hread in Hread'. injection Hread' as <-. congruence.
  - intros Hm Hmf Hlf [eng Heng]. destruct w as [t tr].
    unfold AiInference_init, bind, ret, py_assert, lift_outcome, load_labels,
      log_info, emit, modify, time_monotonic. simpl.
    rewrite Hm, Hmf, Hlf. simpl. rewrite Heng, Hread. simpl. by rewrite Hlines.
Qed.

(** C9: the label mapping is a function of the text of the labels file.
    Two constructions that read the same text, whatever else differs
    between them, hold equal mappings; in particular two constructions
    from one configuration record over one labels file. *)
Theorem label_mapping_deterministic (env1 env2 : Env)
    (cfg1 cfg2 : gmap string Value) (w1 w2 w1' w2' : World)
    (a1 a2 : AiInference Engine) :
  open_read env1 (dict_get cfg1 "labels" VNone)
  = open_read env2 (dict_get cfg2 "labels" VNone) ->
  AiInference_init env1 (Some cfg1) w1 = (Return a1, w1') ->
  AiInference_init env2 (Some cfg2) w2 = (Return a2, w2') ->
  labels a1 = labels a2.
Proof.
  intros Hsame H1 H2.
  apply init_inversion in H1
    as (c1 & text1 & [= <-] & _ & _ & _ & _ & Hread1 & Hlines1 & _).
  apply init_inversion in H2
    as (c2 & text2 & [= <-] & _ & _ & _ & _ & Hread2 & Hlines2 & _).
  rewrite Hread1, Hread2 in Hsame. injection Hsame as ->.
  rewrite Hlines1 in Hlines2. by injection Hlines2.
Qed.

End Labels.

(** C5 (counterexample): the line ["0person"] has no whitespace after its
    identifier, so [\d+\s+.+] does not match it; the construction returns a
    stage all the same, with [0] mapped to ["person"]. *)
Lemma glued_line_is_accepted :
  Exists (fun line => Spec.line_matches line = false)
         (readlines (of_string "0person
"))
  /\ exists a w',
      AiInference_init Bench.env (Some (Bench.cfg "glued.txt")) Bench.world0
      = (Return a, w')
      /\ labels a = <[0 := of_string "person"]> ∅.
Proof.
  split.
  - apply Exists_cons_hd. reflexivity.
  - eexists _, _. split; [vm_compute; reflexivity|]. vm_compute. reflexivity.
Qed.

(** ** The properties on the test bench *)

Lemma bench_construction :
  AiInference_init Bench.env (Some (Bench.cfg "coco_labels.txt")) Bench.world0
  = (Return Bench.stage, Bench.world1).
Proof. vm_compute. reflexivity. Qed.

Lemma bench_construction_later :
  AiInference_init Bench.env_later (Some (Bench.cfg "coco_labels.txt")) Bench.world0
  = (Return Bench.stage_later, Bench.world1).
Proof. vm_compute. reflexivity. Qed.

Lemma chain_forwarding_witness :
  engine_answer Bench.env Bench.st1 "frame" = Return [(0, 0.87%float)]
  /\ forwards (events_since (world Bench.st1)
                 (snd (receive_next_sample Bench.env "frame" Bench.st1)))
     = [(7%nat, produced Bench.env Bench.st1 [(0, 0.87%float)])]
  /\ fst (receive_next_sample Bench.env "frame" Bench.st1) = Return tt.
Proof.
  split; [reflexivity|].
  exact (chain_forwarding Bench.env Bench.st1 "frame" [(0, 0.87%float)] (Some 7%nat)
           eq_refl eq_refl eq_refl).
Defined.

Lemma engine_exception_propagates_witness :
  engine_answer Bench.env Bench.st1 "corrupt"
  = Raise (Foreign "RuntimeError" "engine failure")
  /\ fst (receive_next_sample Bench.env "corrupt" Bench.st1)
     = Raise (Foreign "RuntimeError" "engine failure")
  /\ forwards (events_since (world Bench.st1)
                 (snd (receive_next_sample Bench.env "corrupt" Bench.st1))) = [].
Proof.
  split; [reflexivity|].
  exact (engine_exception_propagates Bench.env Bench.st1 "corrupt"
           (Foreign "RuntimeError" "engine failure") eq_refl).
Defined.

Lemma timing_diagnostics_witness :
  In (EvLog inf_info [VFloat 250; VFloat 2])
     (events_since (world Bench.st1)
        (snd (receive_next_sample Bench.env "frame" Bench.st1)))
  /\ last_time (self (snd (receive_next_sample Bench.env "frame" Bench.st1)))
     = 10.5%float.
Proof.
  destruct (timing_diagnostics Bench.env Bench.st1 "frame" [(0, 0.87%float)]
              eq_refl eq_refl) as (Hlog & _ & Hlast & _).
  split; [exact Hlog|exact Hlast].
Defined.

Lemma engine_failure_keeps_last_time_witness :
  self (snd (receive_next_sample Bench.env "corrupt" Bench.st1)) = self Bench.st1
  /\ last_time (self (snd (receive_next_sample Bench.env "corrupt" Bench.st1)))
     = 10%float.
Proof.
  destruct (engine_failure_keeps_last_time Bench.env Bench.st1 "corrupt"
              (Foreign "RuntimeError" "engine failure") eq_refl)
    as (Hself & Hlast & _).
  split; [exact Hself|exact Hlast].
Defined.

Lemma detect_call_arguments_witness :
  detect_calls
    (events_since
       (world (run_calls Bench.env ["corrupt"; "frame"]%string Bench.st1))
       (snd (receive_next_sample Bench.env "another frame"
               (run_calls Bench.env ["corrupt"; "frame"]%string Bench.st1))))
  = [EvDetect "engine" "another frame" (VFloat 0.6) true true 3].
Proof.
  exact (detect_call_arguments Bench.env (Bench.cfg "coco_labels.txt")
           Bench.world0 Bench.world1 Bench.world1 Bench.stage (Some 7%nat)
           ["corrupt"; "frame"]%string "another frame" bench_construction).
Defined.

Lemma last_time_initialised_witness :
  last_time Bench.stage = 10%float
  /\ In (EvLog inf_info [VFloat 250; VFloat 2])
        (events_since Bench.world1
           (snd (receive_next_sample Bench.env "frame" Bench.st1))).
Proof.
  exact (last_time_initialised Bench.env (Some (Bench.cfg "coco_labels.txt"))
           Bench.world0 Bench.world1 Bench.world1 Bench.stage (Some 7%nat)
           "frame" [(0, 0.87%float)] bench_construction eq_refl).
Defined.

Lemma construction_fails_fast_witness :
  AiInference_init Bench.env (Some Bench.cfg_no_model) Bench.world0
  = (Raise (AssertionError "pipeline element ai: requires argument model:" None),
     Bench.world0)
  /\ AiInference_init Bench.env (Some (Bench.cfg "nowhere.txt")) Bench.world0
     = (Raise (AssertionError "AI model labels file does not exist: {}"
                 (Some (VStr "nowhere.txt"))),
        Bench.world0).
Proof.
  split.
  - apply (proj1 (construction_fails_fast Bench.env Bench.cfg_no_model Bench.world0)).
    vm_compute. reflexivity.
  - destruct (proj2 (construction_fails_fast Bench.env (Bench.cfg "nowhere.txt")
                       Bench.world0)) as (e & He & Hmsg).
    + vm_compute. reflexivity.
    + rewrite He. rewrite Hmsg; [|vm_compute; reflexivity|vm_compute; reflexivity].
      vm_compute. reflexivity.
Defined.

Lemma valid_configuration_constructs_witness :
  exists a w',
    AiInference_init Bench.env (Some (Bench.cfg "coco_labels.txt")) Bench.world0
    = (Return a, w')
    /\ labels a = Bench.coco_labels.
Proof.
  destruct (valid_configuration_constructs Bench.env (Bench.cfg "coco_labels.txt")
              Bench.world0 "engine" (of_string "0 person
15 cat
"))
    as (a & w' & Hinit & Hlabels & _);
    try (vm_compute; reflexivity).
  - vm_compute. repeat constructor.
  - exists a, w'. split; [exact Hinit|]. rewrite Hlabels. vm_compute. reflexivity.
Defined.

Lemma unmatched_line_fails_construction_witness :
  Exists (fun line => Re.rmatch p line = None)
         (readlines (of_string "0 person
cat
2 dog
"))
  /\ fst (AiInference_init Bench.env (Some (Bench.cfg "broken.txt")) Bench.world0)
     = Raise (AttributeError "'NoneType' object has no attribute 'groups'").
Proof.
  assert (Hbad : Exists (fun line => Re.rmatch p line = None)
                   (readlines (of_string "0 person
cat
2 dog
"))).
  { apply Exists_cons_tl, Exists_cons_hd. reflexivity. }
  split; [exact Hbad|].
  destruct (unmatched_line_fails_construction Bench.env (Bench.cfg "broken.txt")
              Bench.world0 _ eq_refl Hbad) as (_ & _ & Hinit).
  apply Hinit; try (vm_compute; reflexivity). by exists "engine"%string.
Defined.

Lemma label_mapping_deterministic_witness :
  labels Bench.stage = labels Bench.stage_later.
Proof.
  exact (label_mapping_deterministic Bench.env Bench.env_later
           (Bench.cfg "coco_labels.txt") (Bench.cfg "coco_labels.txt")
           Bench.world0 Bench.world0 Bench.world1 Bench.world1
           Bench.stage Bench.stage_later eq_refl
           bench_construction bench_construction_later).
Defined.

(** The text of the specification's example, and the timing of the first
    frame on the bench. *)
Example format_inf_info_example :
  format_inf_info 12.34 27.81 = "Inference: 12.34 ms  FPS: 27.81 fps"%string.
Proof. vm_compute. reflexivity. Qed.

Example format_2f_ties_to_even :
  (format_2f 0.125, format_2f 0.375, format_2f 99.995, format_2f (-0.001))
  = ("0.12", "0.38", "100.00", "-0.00")%string.
Proof. vm_compute. reflexivity. Qed.

Example bench_first_frame_text :
  sample_text_lines (produced Bench.env Bench.st1 [(0, 0.87%float)])
  = "Inference: 250.00 ms  FPS: 2.00 fps"%string.
Proof. vm_compute. reflexivity. Qed.

(** The end-to-end example of the specification: the labels file
    ["0 person\n15 cat\n"] maps the class of the detection to ["person"]. *)
Example bench_label_lookup :
  labels Bench.stage !! 0 = Some (of_string "person")
  /\ labels Bench.stage !! 15 = Some (of_string "cat").
Proof. split; vm_compute; reflexivity. Qed.

(** A line of digits alone is read as an identifier and a one-digit label. *)
Example digits_only_line :
  Re.rmatch p (of_string "12
") = Some [of_string "1"; of_string "2"].
Proof. reflexivity. Qed.

(** When the clock has not advanced since [last_time], the division
    raises. *)
Example zero_elapsed_raises :
  fst (receive_next_sample Bench.env "frame"
         {| self := set_last_time 10.5 Bench.stage; world := Bench.world1 |})
  = Raise (ZeroDivisionError "float division by zero").
Proof. vm_compute. reflexivity. Qed.

(** [inference_callback] of [cameras/detect.py] makes the same update of
    [last_time] before it fails on the undefined name. *)
Example inference_callback_updates_last_time :
  let st := {| cb_engine := "engine"%string; cb_threshold := VFloat 0.2; cb_top_k := 3;
               cb_last_time := 10; cb_world := Bench.world1 |} in
  fst (inference_callback Bench.env "frame" st)
  = Raise (Foreign "NameError" "name 'text_lines' is not defined")
  /\ cb_last_time (snd (inference_callback Bench.env "frame" st)) = 10.5%float.
Proof. split; vm_compute; reflexivity. Qed.


(** * Further properties of the code *)

(** ** [p.match] in closed form *)

Module MatchFacts.

Import Re ReFacts.
Local Open Scope nat_scope.

Lemma digit_is_no_newline (c : ascii) : isdecimal c = true -> is_LF c = false.
Proof. by destruct c as [[] [] [] [] [] [] [] []]. Qed.

Lemma space_run_app (w s : list ascii) :
  Forall (fun c => isspace c = true) w ->
  run_length Space (w ++ s) = length w + run_length Space s.
Proof.
  induction 1 as [|c w Hc _ IH]; [done|]. simpl. rewrite Hc. by rewrite IH.
Qed.

Lemma run_all (k : CharClass) (s : list ascii) :
  Forall (fun c => in_class k c = true) s -> run_length k s = length s.
Proof. induction 1 as [|c s Hc _ IH]; [done|]. simpl. by rewrite Hc, IH. Qed.

(** What is left after a run does not start with a character of the
    class. *)
Lemma run_length_drop (k : CharClass) (s : list ascii) :
  run_length k (drop (run_length k s) s) = 0.
Proof.
  induction s as [|c s IH]; [done|]. simpl.
  destruct (in_class k c) eqn:Hc; simpl; [done|by rewrite Hc].
Qed.

Lemma rmatch_unfold (it : Item) (q : list Item) (s : list ascii) :
  rmatch (it :: q) s
  = first_down
      (fun n =>
         if item_min it <=? n then
           match rmatch q (drop n s) with
           | Some gs => Some (if item_group it then take n s :: gs else gs)
           | None => None
           end
         else None)
      (run_length (item_class it) s).
Proof. reflexivity. Qed.

(** Giving back whitespace to [\s*] never helps: a digit has to come
    next. *)
Lemma star_space_takes_all (q : list Item) (s : list ascii) :
  rmatch (star Space :: group_plus Digit :: q) s
  = rmatch (group_plus Digit :: q) (drop (run_length Space s) s).
Proof.
  rewrite (rmatch_unfold (star Space)). cbn [star item_min item_class item_group].
  set (f := fun n : nat =>
              if 0 <=? n
              then match rmatch (group_plus Digit :: q) (drop n s) with
                   | Some gs => Some gs
                   | None => None
                   end
              else None).
  assert (Hbelow : forall m, m < run_length Space s -> f m = None).
  { intros m Hm. unfold f. cbn [Nat.leb].
    rewrite rmatch_cons_short; [done|].
    destruct (run_within Space s m Hm) as (c & s' & -> & Hc).
    cbn [group_plus item_class item_min]. rewrite run_stops; [lia|].
    simpl in Hc |- *. destruct (isdecimal c) eqn:Hd; [|done].
    apply space_is_no_digit in Hc. congruence. }
  destruct (f (run_length Space s)) as [gs|] eqn:Htop.
  - rewrite (first_down_top f _ gs Htop). unfold f in Htop. cbn [Nat.leb] in Htop.
    by destruct (rmatch (group_plus Digit :: q) (drop (run_length Space s) s)).
  - rewrite first_down_none.
    + unfold f in Htop. cbn [Nat.leb] in Htop.
      by destruct (rmatch (group_plus Digit :: q) (drop (run_length Space s) s)).
    + intros m Hm. destruct (Nat.eq_dec m (run_length Space s)) as [->|Hne]; [done|].
      apply Hbelow. lia.
Qed.

(** [(\d+)(.+)] at the start of [s]: all the digits and the rest of the
    line, or all the digits but the last and that digit. *)
Lemma digits_then_rest (s : list ascii) :
  rmatch [group_plus Digit; group_plus Dot] s
  = let d := run_length Digit s in
    let r := run_length Dot (drop d s) in
    if 1 <=? r then
      if 1 <=? d then Some [take d s; take r (drop d s)] else None
    else
      if 2 <=? d then Some [take (d - 1) s; take 1 (drop (d - 1) s)] else None.
Proof.
  cbn zeta.
  set (d := run_length Digit s). set (r := run_length Dot (drop d s)).
  destruct (1 <=? r) eqn:Hr.
  - apply Nat.leb_le in Hr. destruct (1 <=? d) eqn:Hd.
    + apply Nat.leb_le in Hd.
      rewrite (rmatch_cons_greedy (group_plus Digit) [group_plus Dot] s
                 [take r (drop d s)]); [done|done|].
      cbn [group_plus item_class]. fold d. rewrite rmatch_last.
      cbn [group_plus item_min item_class item_group]. fold r.
      apply Nat.leb_le in Hr. by rewrite Hr.
    + apply Nat.leb_gt in Hd. apply rmatch_cons_short.
      cbn [group_plus item_class item_min]. fold d. lia.
  - apply Nat.leb_gt in Hr.
    rewrite (rmatch_unfold (group_plus Digit)).
    cbn [group_plus item_min item_class item_group]. fold d.
    set (g := fun n : nat =>
                if 1 <=? n
                then match rmatch [group_plus Dot] (drop n s) with
                     | Some gs => Some (take n s :: gs)
                     | None => None
                     end
                else None).
    assert (Hd : g d = None).
    { unfold g. destruct (1 <=? d); [|done]. rewrite rmatch_last.
      cbn [group_plus item_min item_class item_group]. fold r.
      apply Nat.leb_gt in Hr. by rewrite Hr. }
    destruct (2 <=? d) eqn:Hd2.
    + apply Nat.leb_le in Hd2.
      destruct (run_within Digit s (d - 1)) as (c & s' & Hc & Hdig); [fold d; lia|].
      assert (Hs' : s' = drop d s).
      { replace d with ((d - 1) + 1) at 1 by lia. rewrite <- drop_drop, Hc. done. }
      assert (Hrun : run_length Dot (drop (d - 1) s) = 1).
      { rewrite Hc. cbn [run_length in_class]. simpl in Hdig.
        rewrite (digit_is_no_newline c Hdig). cbn [negb]. rewrite Hs'. fold r. lia. }
      assert (Hg : g (d - 1) = Some [take (d - 1) s; take 1 (drop (d - 1) s)]).
      { unfold g. assert (H1 : (1 <=? d - 1) = true) by (apply Nat.leb_le; lia).
        rewrite H1, rmatch_last.
        cbn [group_plus item_min item_class item_group]. by rewrite Hrun. }
      clearbody r. clearbody d. destruct d as [|d']; [lia|].
      cbn [first_down]. rewrite Hd.
      replace (S d' - 1) with d' in Hg |- * by lia. by apply first_down_top.
    + apply Nat.leb_gt in Hd2. apply first_down_none. intros m Hm.
      destruct (Nat.eq_dec m d) as [->|Hne]; [done|].
      unfold g. assert (H0 : (1 <=? m) = false) by (apply Nat.leb_gt; lia).
      by rewrite H0.
Qed.

End MatchFacts.

(** X1: the backtracking search of [p.match] comes to this.  After the
    leading whitespace come the digits; when a character other than a newline
    follows them, the identifier is all the digits and the label the rest of
    the line; when nothing follows and there are two digits or more, the
    identifier is all the digits but the last and the label is the last
    digit; otherwise there is no match. *)
Theorem p_match_fields (s : list ascii) :
  Re.rmatch p s
  = match label_fields s with
    | Some (num, text) => Some [num; text]
    | None => None
    end.
Proof.
  unfold p. rewrite MatchFacts.star_space_takes_all, MatchFacts.digits_then_rest.
  unfold label_fields. cbn zeta.
  set (s1 := drop (Re.run_length Re.Space s) s).
  destruct (1 <=? Re.run_length Re.Dot (drop (Re.run_length Re.Digit s1) s1))%nat;
    [destruct (1 <=? Re.run_length Re.Digit s1)%nat
    |destruct (2 <=? Re.run_length Re.Digit s1)%nat]; reflexivity.
Qed.

(** ** What [load_labels] accepts and what it keeps *)

Module LoadFacts.

Import Re ReFacts MatchFacts.

Lemma fields_of_match (s num text : list ascii) :
  rmatch p s = Some [num; text] <-> label_fields s = Some (num, text).
Proof.
  unfold p. rewrite star_space_takes_all, digits_then_rest.
  unfold label_fields. cbn zeta.
  set (s1 := drop (run_length Space s) s).
  destruct (1 <=? run_length Dot (drop (run_length Digit s1) s1))%nat;
    [destruct (1 <=? run_length Digit s1)%nat
    |destruct (2 <=? run_length Digit s1)%nat];
    split; intros H; try discriminate; by injection H as <- <-.
Qed.

Lemma no_fields_no_match (s : list ascii) :
  rmatch p s = None <-> label_fields s = None.
Proof.
  unfold p. rewrite star_space_takes_all, digits_then_rest.
  unfold label_fields. cbn zeta.
  set (s1 := drop (run_length Space s) s).
  destruct (1 <=? run_length Dot (drop (run_length Digit s1) s1))%nat;
    [destruct (1 <=? run_length Digit s1)%nat
    |destruct (2 <=? run_length Digit s1)%nat]; by split.
Qed.

(** The identifier [p] captures is made of digits. *)
Lemma fields_digits (s num text : list ascii) :
  label_fields s = Some (num, text) -> Forall (fun c => isdecimal c = true) num.
Proof.
  unfold label_fields. cbn zeta.
  set (s1 := drop (run_length Space s) s).
  destruct (1 <=? run_length Dot (drop (run_length Digit s1) s1))%nat.
  - destruct (1 <=? run_length Digit s1)%nat; [|done]. intros [= <- _].
    by apply (run_take Digit).
  - destruct (2 <=? run_length Digit s1)%nat; [|done]. intros [= <- _].
    apply (run_take Digit). lia.
Qed.

Lemma int_from (acc : Z) (s : list ascii) :
  0 <= acc -> Forall (fun c => isdecimal c = true) s ->
  0 <= fold_left (fun a c => 10 * a + digit_value c) s acc.
Proof.
  intros Hacc Hs. revert acc Hacc.
  induction Hs as [|c s Hc _ IH]; intros acc Hacc; [done|]. simpl. apply IH.
  unfold isdecimal in Hc. apply andb_true_iff in Hc as [Hlo _].
  apply Nat.leb_le in Hlo. unfold digit_value. lia.
Qed.

Lemma int_nonnegative (s : list ascii) :
  Forall (fun c => isdecimal c = true) s -> 0 <= int s.
Proof. by apply int_from. Qed.

Lemma lstrip_head (s : list ascii) (c : ascii) (t : list ascii) :
  lstrip s = c :: t -> isspace c = false.
Proof.
  induction s as [|a s IH]; [done|]. simpl.
  destruct (isspace a) eqn:Ha; [done|]. by intros [= <- _].
Qed.

Lemma lstrip_fixed (s : list ascii) : lstrip (lstrip s) = lstrip s.
Proof.
  destruct (lstrip s) as [|c t] eqn:Hs; [done|].
  simpl. by rewrite (lstrip_head s c t Hs).
Qed.

Lemma lstrip_keeps_last (x : list ascii) (c : ascii) :
  isspace c = false -> exists pre, lstrip (x ++ [c]) = pre ++ [c].
Proof.
  intros Hc. induction x as [|a x IH]; simpl.
  - rewrite Hc. by exists [].
  - destruct (isspace a); [done|]. by exists (a :: x).
Qed.

(** A stripped string neither starts nor ends with whitespace. *)
Lemma strip_clean (s : list ascii) :
  lstrip (strip s) = strip s /\ rstrip (strip s) = strip s.
Proof.
  unfold strip, rstrip. split.
  - destruct (lstrip s) as [|c t] eqn:Hs; [done|].
    pose proof (lstrip_head s c t Hs) as Hc.
    change (rev (c :: t)) with (rev t ++ [c]).
    destruct (lstrip_keeps_last (rev t) c Hc) as (pre & ->).
    rewrite rev_app_distr. simpl. by rewrite Hc.
  - by rewrite rev_involutive, lstrip_fixed.
Qed.

(** The mapping built from [lines] onto [acc], when every line matches. *)
Lemma labels_of_lines_app (xs ys : list (list ascii)) (acc m : gmap Z (list ascii)) :
  labels_of_lines (xs ++ ys) acc = Return m ->
  exists mid, labels_of_lines xs acc = Return mid /\ labels_of_lines ys mid = Return m.
Proof.
  revert acc. induction xs as [|line xs IH]; intros acc H; [by exists acc|].
  cbn [app labels_of_lines] in H |- *.
  destruct (rmatch p line) as [gs|] eqn:Hp; [|done].
  destruct (LineFacts.p_groups line gs Hp) as (num & text & ->). by apply IH.
Qed.

Lemma labels_of_lines_keeps (lines : list (list ascii)) (acc m : gmap Z (list ascii))
    (k : Z) (v : list ascii) :
  labels_of_lines lines acc = Return m ->
  acc !! k = Some v ->
  (forall line num text,
      line ∈ lines -> label_fields line = Some (num, text) -> int num <> k) ->
  m !! k = Some v.
Proof.
  revert acc. induction lines as [|line lines IH]; intros acc H Hacc Hother.
  - by injection H as <-.
  - cbn [labels_of_lines] in H.
    destruct (rmatch p line) as [gs|] eqn:Hp; [|done].
    destruct (LineFacts.p_groups line gs Hp) as (num & text & ->).
    apply (IH _ H).
    + rewrite lookup_insert_ne; [done|].
      apply (Hother line num text); [left|]. by apply fields_of_match.
    + intros line' num' text' Hin. apply Hother. by right.
Qed.

Lemma labels_of_lines_invariant (P : Z -> list ascii -> Prop)
    (lines : list (list ascii)) (acc m : gmap Z (list ascii)) :
  (forall line num text,
      line ∈ lines -> label_fields line = Some (num, text) -> P (int num) (strip text)) ->
  (forall k v, acc !! k = Some v -> P k v) ->
  labels_of_lines lines acc = Return m ->
  forall k v, m !! k = Some v -> P k v.
Proof.
  revert acc. induction lines as [|line lines IH]; intros acc Hline Hacc H.
  - by injection H as <-.
  - cbn [labels_of_lines] in H.
    destruct (rmatch p line) as [gs|] eqn:Hp; [|done].
    destruct (LineFacts.p_groups line gs Hp) as (num & text & ->).
    refine (IH _ _ _ H).
    { intros l n t Hin. apply Hline. by right. }
    intros k v. destruct (decide (int num = k)) as [<-|Hne].
    + rewrite lookup_insert_eq. intros [= <-].
      apply (Hline line); [left|]. by apply fields_of_match.
    + rewrite lookup_insert_ne by done. apply Hacc.
Qed.

Lemma load_labels_inversion {Image Objs Engine : Type} (env : Env Image Objs Engine)
    (path : Value) (w w' : World Image Objs Engine) (m : gmap Z (list ascii)) :
  load_labels env path w = (Return m, w') ->
  exists text,
    open_read env path = Return text
    /\ labels_of_lines (readlines text) ∅ = Return m
    /\ w' = w.
Proof.
  unfold load_labels, bind, lift_outcome.
  destruct (open_read env path) as [text|e]; [|done].
  destruct (labels_of_lines (readlines text) ∅) as [m'|e] eqn:Hl; [|done].
  intros [= <- <-]. by exists text.
Qed.

Lemma universal_newlines_crlf (text : list ascii) :
  Forall (fun c => is_CR c = false) text ->
  universal_newlines (to_crlf text) = text /\ universal_newlines text = text.
Proof.
  induction 1 as [|c text Hc _ [IH1 IH2]]; [done|]. split.
  - cbn [to_crlf]. destruct (is_LF c) eqn:Hlf.
    + apply is_LF_eq in Hlf as ->. cbn. by rewrite IH1.
    + cbn [universal_newlines]. by rewrite Hc, IH1.
  - cbn [universal_newlines]. by rewrite Hc, IH2.
Qed.

Lemma fields_after_zero (t num label : list ascii) :
  run_length Space t = 0%nat ->
  label_fields t = Some (num, label) ->
  label_fields ("0"%char :: t) = Some ("0"%char :: num, label).
Proof.
  intros Ht H. unfold label_fields in H |- *. cbn zeta in H |- *.
  rewrite Ht in H. change (drop 0 t) with t in H.
  change (run_length Space ("0"%char :: t)) with 0%nat.
  change (drop 0 ("0"%char :: t)) with ("0"%char :: t).
  change (run_length Digit ("0"%char :: t)) with (S (run_length Digit t)).
  set (d := run_length Digit t) in *.
  change (drop (S d) ("0"%char :: t)) with (drop d t).
  destruct (1 <=? run_length Dot (drop d t))%nat.
  - destruct (1 <=? d)%nat; [|done]. injection H as <- <-. reflexivity.
  - destruct (2 <=? d)%nat eqn:Hd; [|done]. apply Nat.leb_le in Hd.
    injection H as <- <-.
    assert (H2 : (2 <=? S d)%nat = true) by (apply Nat.leb_le; lia).
    rewrite H2. replace (S d - 1)%nat with (S (d - 1)) by lia. reflexivity.
Qed.

End LoadFacts.

(** X2: whitespace at the start of a line is ignored: the line matches or
    not, and yields the same identifier and label, with or without it. *)
Theorem leading_whitespace_is_ignored (w s : list ascii) :
  Forall (fun c => isspace c = true) w ->
  Re.rmatch p (w ++ s) = Re.rmatch p s.
Proof.
  intros Hw. unfold p. rewrite !MatchFacts.star_space_takes_all.
  rewrite (MatchFacts.space_run_app w s Hw). by rewrite drop_app_add.
Qed.

(** X3: [load_labels] returns a mapping exactly when every line of the
    file has its two fields: a digit after the leading whitespace and
    something after that digit (the closed form of [p.match]). *)
Theorem load_labels_returns_iff {Image Objs Engine : Type}
    (env : Env Image Objs Engine) (path : Value) (w : World Image Objs Engine)
    (text : list ascii) :
  open_read env path = Return text ->
  (exists m, load_labels env path w = (Return m, w))
  <-> Forall (fun line => is_Some (label_fields line)) (readlines text).
Proof.
  intros Hread. unfold load_labels, bind, lift_outcome. rewrite Hread. split.
  - intros [m Hm]. apply Forall_forall. intros line Hin.
    destruct (label_fields line) as [fields|] eqn:Hf; [by eexists|].
    apply LoadFacts.no_fields_no_match in Hf.
    rewrite (LabelFacts.labels_of_lines_unmatched (readlines text) ∅) in Hm; [done|].
    apply Exists_exists. by exists line.
  - intros Hall.
    destruct (LabelFacts.labels_of_lines_matched (readlines text) ∅) as [m Hm].
    + eapply Forall_impl; [exact Hall|]. intros line [fields Hf] Hnone.
      apply LoadFacts.no_fields_no_match in Hnone. congruence.
    + exists m. by rewrite Hm.
Qed.

(** X4: a labels file with a blank line, or a line of whitespace only,
    cannot be loaded: [load_labels] raises on [None.groups()]. *)
Theorem blank_line_fails_load {Image Objs Engine : Type}
    (env : Env Image Objs Engine) (path : Value) (w : World Image Objs Engine)
    (text line : list ascii) :
  open_read env path = Return text ->
  line ∈ readlines text ->
  Forall (fun c => isspace c = true) line ->
  load_labels env path w
  = (Raise (AttributeError "'NoneType' object has no attribute 'groups'"), w).
Proof.
  intros Hread Hin Hblank.
  assert (Hnone : Re.rmatch p line = None).
  { unfold p. rewrite MatchFacts.star_space_takes_all.
    rewrite (MatchFacts.run_all Re.Space line Hblank), drop_all.
    apply ReFacts.rmatch_cons_short. simpl. lia. }
  unfold load_labels, bind, lift_outcome. rewrite Hread.
  rewrite (LabelFacts.labels_of_lines_unmatched (readlines text) ∅); [done|].
  apply Exists_exists. by exists line.
Qed.

(** X5: what [load_labels] returns is clean: every identifier is a natural
    number and no label starts or ends with whitespace. *)
Theorem loaded_labels_are_clean {Image Objs Engine : Type}
    (env : Env Image Objs Engine) (path : Value) (w w' : World Image Objs Engine)
    (m : gmap Z (list ascii)) (k : Z) (v : list ascii) :
  load_labels env path w = (Return m, w') ->
  m !! k = Some v ->
  0 <= k /\ lstrip v = v /\ rstrip v = v.
Proof.
  intros Hload. apply LoadFacts.load_labels_inversion in Hload as (text & _ & Hl & _).
  revert k v.
  apply (LoadFacts.labels_of_lines_invariant
           (fun k v => 0 <= k /\ lstrip v = v /\ rstrip v = v)
           (readlines text) ∅ m); [| |exact Hl].
  - intros line num label _ Hf. split.
    + apply LoadFacts.int_nonnegative. by apply LoadFacts.fields_digits in Hf.
    + apply LoadFacts.strip_clean.
  - intros k v Hk. by rewrite lookup_empty in Hk.
Qed.

(** X6: when an identifier comes on several lines, the last one wins: a
    line is what the mapping holds for its identifier when no later line
    carries the same number. *)
Theorem later_line_wins {Image Objs Engine : Type}
    (env : Env Image Objs Engine) (path : Value) (w w' : World Image Objs Engine)
    (m : gmap Z (list ascii)) (text : list ascii)
    (before later : list (list ascii)) (line num label : list ascii) :
  open_read env path = Return text ->
  readlines text = before ++ line :: later ->
  label_fields line = Some (num, label) ->
  (forall line' num' label',
      line' ∈ later -> label_fields line' = Some (num', label') -> int num' <> int num) ->
  load_labels env path w = (Return m, w') ->
  m !! int num = Some (strip label).
Proof.
  intros Hread Hlines Hf Hlater Hload.
  apply LoadFacts.load_labels_inversion in Hload as (text' & Hread' & Hl & _).
  rewrite Hread in Hread'. injection Hread' as <-. rewrite Hlines in Hl.
  apply LoadFacts.labels_of_lines_app in Hl as (mid & _ & Hl).
  cbn [labels_of_lines] in Hl. apply LoadFacts.fields_of_match in Hf.
  rewrite Hf in Hl.
  apply (LoadFacts.labels_of_lines_keeps later _ m _ _ Hl); [|exact Hlater].
  by rewrite lookup_insert_eq.
Qed.

(** X7: the line ends do not matter: a file saved with carriage return and
    newline loads the same mapping, or fails the same way, as the file with
    newlines alone. *)
Theorem crlf_file_loads_the_same {Image Objs Engine : Type}
    (env : Env Image Objs Engine) (unix_path dos_path : Value)
    (w : World Image Objs Engine) (text : list ascii) :
  Forall (fun c => is_CR c = false) text ->
  open_read env unix_path = Return text ->
  open_read env dos_path = Return (to_crlf text) ->
  load_labels env dos_path w = load_labels env unix_path w.
Proof.
  intros Hcr Hunix Hdos.
  destruct (LoadFacts.universal_newlines_crlf text Hcr) as [H1 H2].
  unfold load_labels, bind, lift_outcome, readlines.
  by rewrite Hunix, Hdos, H1, H2.
Qed.

(** X8: identifiers are numbers, so zeros written before one change
    nothing: the line with the zeros has the same label and its identifier
    has the same value. *)
Theorem leading_zeros_are_ignored (n : nat) (s num label : list ascii) :
  Re.run_length Re.Space s = 0%nat ->
  label_fields s = Some (num, label) ->
  label_fields (repeat "0"%char n ++ s) = Some (repeat "0"%char n ++ num, label)
  /\ int (repeat "0"%char n ++ num) = int num.
Proof.
  intros Hsp Hf. split.
  - induction n as [|n IH]; [done|]. cbn [repeat app].
    apply LoadFacts.fields_after_zero; [|exact IH]. by destruct n.
  - induction n as [|n IH]; [done|]. cbn [repeat app]. unfold int in *.
    cbn [fold_left]. exact IH.
Qed.

(** ** What a call, and a sequence of calls, leave as they were *)

Section Frames.

Context {Image Objs Engine : Type}.
Variable env : Env Image Objs Engine.

Local Abbreviation St := (St Image Objs Engine).
Local Abbreviation Event := (Event Image Objs Engine).

Lemma call_frame (st : St) (image : Image) :
  exists o t t_last evs,
    receive_next_sample env image st = (o, after st t t_last evs)
    /\ (1 <= t <= 2)%nat
    /\ (forall b sample,
          In (b, sample) (forwards evs) ->
          next_element (base (self st)) = Some b
          /\ sample_labels sample = labels (self st)).
Proof.
  destruct (engine_answer env st image) as [objs|e] eqn:Hans.
  - destruct (PrimFloat.eqb (end_of env st - last_time (self st)) 0) eqn:Hz.
    + eexists _, 2%nat, _, _. split; [by apply run_zero_elapsed with objs|].
      split; [lia|]. intros b sample [].
    + destruct (next_element (base (self st))) as [b|] eqn:Hnext.
      * eexists _, 2%nat, _, _. split; [by apply run_forwarding|].
        split; [lia|]. intros b' sample [[= <- <-]|[]]. done.
      * eexists _, 2%nat, _, _. split; [by apply run_terminal with objs|].
        split; [lia|]. intros b sample [].
  - eexists _, 1%nat, _, _. split; [by apply run_engine_raises|].
    split; [lia|]. intros b sample [].
Qed.

Lemma after_after (st : St) (t1 t2 : nat) (l1 l2 : float) (e1 e2 : list Event) :
  after (after st t1 l1 e1) t2 l2 e2 = after st (t2 + t1) l2 (e1 ++ e2).
Proof. unfold after. simpl. by rewrite Nat.add_assoc, app_assoc. Qed.

Lemma run_calls_frame (images : list Image) (st : St) :
  exists t t_last evs,
    run_calls env images st = after st t t_last evs
    /\ (length images <= t <= 2 * length images)%nat.
Proof.
  revert st. induction images as [|image rest IH]; intros st.
  - exists 0%nat, (last_time (self st)), []. split; [|simpl; lia].
    unfold after. rewrite set_last_time_same, app_nil_r. by destruct st as [a [t tr]].
  - cbn [run_calls].
    destruct (call_frame st image) as (o & t1 & l1 & e1 & -> & Ht1 & _).
    cbn [snd]. destruct (IH (after st t1 l1 e1)) as (t2 & l2 & e2 & -> & Ht2).
    exists (t2 + t1)%nat, l2, (e1 ++ e2). split; [apply after_after|].
    cbn [length]. lia.
Qed.

(** X9: no call and no sequence of calls changes anything of the stage but
    [last_time]: its next element, configuration, engine, labels and
    threshold stay; the trace only grows; and each call reads the clock once
    or twice. *)
Theorem calls_change_only_last_time (images : list Image) (st : St) :
  let st' := run_calls env images st in
  base (self st') = base (self st)
  /\ config (self st') = config (self st)
  /\ engine (self st') = engine (self st)
  /\ labels (self st') = labels (self st)
  /\ confidence_threshold (self st') = confidence_threshold (self st)
  /\ (exists evs, trace (world st') = trace (world st) ++ evs)
  /\ (ticks (world st) + length images <= ticks (world st')
      <= ticks (world st) + 2 * length images)%nat.
Proof.
  intros st'. subst st'.
  destruct (run_calls_frame images st) as (t & l & evs & -> & Ht).
  unfold after. simpl. repeat split; try lia. by exists evs.
Qed.

(** X10: whatever was received before, a sample is only ever handed to the
    element the stage was wired to, and it carries the label mapping loaded
    at construction. *)
Theorem samples_go_to_the_wired_element (cfg : gmap string Value)
    (w w' w0 : World Image Objs Engine) (a : AiInference Engine)
    (link : option Ref) (history : list Image) (image : Image)
    (b : Ref) (sample : Sample Objs) :
  AiInference_init env (Some cfg) w = (Return a, w') ->
  let st := run_calls env history {| self := wire a link; world := w0 |} in
  In (b, sample)
     (forwards (events_since (world st) (snd (receive_next_sample env image st)))) ->
  link = Some b /\ sample_labels sample = labels a.
Proof.
  intros Hinit st Hin.
  assert (Hunwired : next_element (base a) = None) by by apply init_unwired in Hinit.
  destruct (run_calls_frame history {| self := wire a link; world := w0 |})
    as (t & l & evs & Hst & _). fold st in Hst.
  destruct (call_frame st image) as (o & t1 & l1 & e1 & Hcall & _ & Hfw).
  rewrite Hcall in Hin. cbn [snd] in Hin. rewrite events_since_after in Hin.
  destruct (Hfw b sample Hin) as [Hnext Hlabels].
  rewrite Hst in Hnext, Hlabels. unfold after in Hnext, Hlabels. simpl in Hnext, Hlabels.
  destruct link as [b'|]; simpl in Hnext, Hlabels.
  - by injection Hnext as ->.
  - congruence.
Qed.

(** X11: when the clock has not moved since [last_time], the call raises
    ZeroDivisionError after the engine answered: nothing is forwarded, no
    timing is logged and the stage is as it was. *)
Theorem zero_elapsed_call (st : St) (image : Image) (objs : Objs) :
  engine_answer env st image = Return objs ->
  PrimFloat.eqb (end_of env st - last_time (self st)) 0 = true ->
  let r := receive_next_sample env image st in
  fst r = Raise (ZeroDivisionError "float division by zero")
  /\ self (snd r) = self st
  /\ forwards (events_since (world st) (snd r)) = []
  /\ (forall args, ~ In (EvLog inf_info args) (events_since (world st) (snd r))).
Proof.
  intros Hans Hz r. subst r. rewrite (run_zero_elapsed env st image objs Hans Hz).
  cbn [fst snd]. rewrite events_since_after. split; [done|]. split.
  { unfold after. simpl. apply set_last_time_same. }
  split; [done|]. intros args Hin. simpl in Hin.
  destruct Hin as [H|[H|[H|[H|[]]]]]; discriminate H.
Qed.

(** X12: when the next element raises, the exception reaches the caller of
    [receive_next_sample]; the sample was handed over once and [last_time]
    has already moved to the end of the engine call. *)
Theorem next_element_failure (st : St) (image : Image) (objs : Objs) (b : Ref)
    (e : PyExn) :
  engine_answer env st image = Return objs ->
  PrimFloat.eqb (end_of env st - last_time (self st)) 0 = false ->
  next_element (base (self st)) = Some b ->
  next_receive_next_sample env (2 + ticks (world st)) b (produced env st objs) = Raise e ->
  let r := receive_next_sample env image st in
  fst r = Raise e
  /\ last_time (self (snd r)) = end_of env st
  /\ forwards (events_since (world st) (snd r)) = [(b, produced env st objs)].
Proof.
  intros Hans Hz Hnext Hsink r. subst r.
  rewrite (run_forwarding env st image objs b Hans Hz Hnext). cbn [fst snd].
  rewrite events_since_after. by rewrite Hsink.
Qed.

(** X13: with an engine that raises on every call, a stage never forwards
    anything and never changes, however many frames it receives; each frame
    costs one reading of the clock. *)
Theorem dead_engine_never_forwards (images : list Image) (st : St) :
  (forall now eng image thr kar rel k,
      exists e, DetectWithImage env now eng image thr kar rel k = Raise e) ->
  let st' := run_calls env images st in
  self st' = self st
  /\ forwards (events_since (world st) st') = []
  /\ ticks (world st') = (ticks (world st) + length images)%nat.
Proof.
  intros Hdead st'. subst st'.
  assert (H : exists evs,
    run_calls env images st
    = after st (length images) (last_time (self st)) evs /\ forwards evs = []).
  { revert st. induction images as [|image rest IH]; intros st.
    - exists []. split; [|done]. unfold after.
      rewrite set_last_time_same, app_nil_r. by destruct st as [a [t tr]].
    - cbn [run_calls].
      destruct (Hdead (S (ticks (world st))) (engine (self st)) image
                  (confidence_threshold (self st)) true true 3) as [e He].
      rewrite (run_engine_raises env st image e He). cbn [snd].
      destruct (IH (after st 1 (last_time (self st)) (prologue st image)))
        as (evs & -> & Hevs).
      exists (prologue st image ++ evs). split.
      + rewrite after_after. cbn [length]. f_equal. lia.
      + by rewrite forwards_app, Hevs. }
  destruct H as (evs & -> & Hevs). rewrite events_since_after.
  unfold after. simpl. rewrite set_last_time_same. repeat split; [done|lia].
Qed.

End Frames.

(** ** How a construction ends *)

Section ConstructionEnds.

Context {Image Objs Engine : Type}.
Variable env : Env Image Objs Engine.

Local Abbreviation World := (World Image Objs Engine).

(** X14: a construction that fails has never read the clock.  Either it
    has done nothing at all (no configuration, or an assertion failed, or
    [os.path.isfile] raised), or it passed the three assertions and failed in
    the engine constructor or in [load_labels], after one call to the engine
    constructor. *)
Theorem failed_construction (ocfg : option (gmap string Value)) (w w' : World)
    (e : PyExn) :
  AiInference_init env ocfg w = (Raise e, w') ->
  ticks w' = ticks w
  /\ (w' = w
      \/ exists cfg,
          ocfg = Some cfg
          /\ truthy (dict_get cfg "model" VNone) = true
          /\ os_path_isfile env (dict_get cfg "model" VNone) = Return true
          /\ os_path_isfile env (dict_get cfg "labels" VNone) = Return true
          /\ trace w' = trace w ++ init_events cfg
          /\ (DetectionEngine env (dict_get cfg "model" VNone) = Raise e
              \/ load_labels env (dict_get cfg "labels" VNone) w' = (Raise e, w'))).
Proof.
  destruct w as [t tr]. destruct ocfg as [cfg|].
  2:{ intros [= <- <-]. split; [done|by left]. }
  unfold AiInference_init, bind, ret, raise, py_assert, lift_outcome, load_labels,
    log_info, emit, modify, time_monotonic. simpl.
  destruct (truthy (dict_get cfg "model" VNone)) eqn:Hm; simpl.
  2:{ intros [= <- <-]. split; [done|by left]. }
  destruct (os_path_isfile env (dict_get cfg "model" VNone)) as [[|]|e1] eqn:Hmf; simpl.
  2,3:(intros [= <- <-]; split; [done|by left]).
  destruct (os_path_isfile env (dict_get cfg "labels" VNone)) as [[|]|e2] eqn:Hlf; simpl.
  2,3:(intros [= <- <-]; split; [done|by left]).
  destruct (DetectionEngine env (dict_get cfg "model" VNone)) as [eng|e3] eqn:Heng; simpl.
  - destruct (open_read env (dict_get cfg "labels" VNone)) as [text|e4] eqn:Hread; simpl.
    + destruct (labels_of_lines (readlines text) ∅) as [lbls|e5] eqn:Hlines; simpl.
      * intros [=].
      * intros [= <- <-]. split; [done|]. right. exists cfg.
        repeat split; try done.
        { simpl. unfold init_events. by rewrite <- app_assoc. }
        right. unfold bind, lift_outcome. by rewrite Hread, Hlines.
    + intros [= <- <-]. split; [done|]. right. exists cfg.
      repeat split; try done.
      { simpl. unfold init_events. by rewrite <- app_assoc. }
      right. unfold bind, lift_outcome. by rewrite Hread.
  - intros [= <- <-]. split; [done|]. right. exists cfg.
    repeat split; try done.
    { simpl. unfold init_events. by rewrite <- app_assoc. }
    by left.
Qed.

(** X15: a construction that returns a stage was given a configuration,
    which the stage keeps; the stage has no next element; its engine is the
    one built from the model path and its threshold the configured one or
    0.6, whatever the value is; in all, the construction logged twice, called
    the engine constructor once and read the clock once. *)
Theorem returned_construction (ocfg : option (gmap string Value)) (w w' : World)
    (a : AiInference Engine) :
  AiInference_init env ocfg w = (Return a, w') ->
  exists cfg,
    ocfg = Some cfg
    /\ config a = cfg
    /\ next_element (base a) = None
    /\ DetectionEngine env (dict_get cfg "model" VNone) = Return (engine a)
    /\ confidence_threshold a = dict_get cfg "confidence_threshold" (VFloat 0.6)
    /\ ticks w' = S (ticks w)
    /\ trace w'
       = trace w ++ init_events cfg
           ++ [EvLog "AI model confidence threshold: 0:.0f%"
                 [dict_get cfg "confidence_threshold" (VFloat 0.6)]].
Proof.
  intros Hinit. pose proof Hinit as Hinv.
  apply init_inversion in Hinv
    as (cfg & text & -> & Hm & Hmf & Hlf & Heng & Hread & Hlines & Ha & Hticks).
  rewrite (init_returns env cfg w (engine a) text (labels a) Hm Hmf Hlf Heng Hread Hlines)
    in Hinit.
  injection Hinit as _ <-. exists cfg. rewrite Ha.
  repeat split; try done.
Qed.

End ConstructionEnds.

(** ** The callback of [cameras/detect.py] *)

Section CallbackFacts.

Context {Image Objs Engine : Type}.
Variable env : Env Image Objs Engine.

Local Abbreviation CallbackState := (@CallbackState Image Objs Engine).

(** X16: every call of [inference_callback] calls the engine once, with the
    threshold and the top_k of the command line, and ends with an exception:
    it never returns, so [generate_svg] is never reached. *)
Theorem inference_callback_never_returns (st : CallbackState) (image : Image) :
  let r := inference_callback env image st in
  (exists e, fst r = Raise e)
  /\ detect_calls (drop (length (trace (cb_world st))) (trace (cb_world (snd r))))
     = [EvDetect (cb_engine st) image (cb_threshold st) true true (cb_top_k st)].
Proof.
  destruct st as [eng thr k last [t tr]].
  unfold inference_callback, bind, cb_in_world, cb_detect, time_monotonic, gets,
    lift_outcome, float_truediv, modify, log_info, emit, raise. simpl.
  destruct (DetectWithImage env (S t) eng image thr true true k) as [objs|e]; simpl.
  - destruct (PrimFloat.eqb (monotonic env (S t) - last) 0); simpl.
    + split; [by eexists|]. by rewrite drop_app_length.
    + split; [by eexists|]. rewrite <- app_assoc, drop_app_length. reflexivity.
  - split; [by eexists|]. by rewrite drop_app_length.
Qed.

(** X17: when the engine answers and the clock has moved, the callback
    stores the end of the engine call as [last_time] before it fails on the
    name [text_lines]; the command-line settings stay. *)
Theorem inference_callback_updates_timing (st : CallbackState) (image : Image)
    (objs : Objs) :
  DetectWithImage env (S (ticks (cb_world st))) (cb_engine st) image
    (cb_threshold st) true true (cb_top_k st) = Return objs ->
  PrimFloat.eqb (monotonic env (S (ticks (cb_world st))) - cb_last_time st) 0 = false ->
  let r := inference_callback env image st in
  fst r = Raise (Foreign "NameError" "name 'text_lines' is not defined")
  /\ cb_last_time (snd r) = monotonic env (S (ticks (cb_world st)))
  /\ cb_threshold (snd r) = cb_threshold st
  /\ cb_top_k (snd r) = cb_top_k st
  /\ In (EvLog "Inference: %.2f ms  FPS: %.2f fps"
           [VFloat ((monotonic env (S (ticks (cb_world st)))
                     - monotonic env (ticks (cb_world st))) * 1000)%float;
            VFloat (1 / (monotonic env (S (ticks (cb_world st))) - cb_last_time st))%float])
        (trace (cb_world (snd r))).
Proof.
  destruct st as [eng thr k last [t tr]]. simpl. intros Hans Hz.
  unfold inference_callback, bind, cb_in_world, cb_detect, time_monotonic, gets,
    lift_outcome, float_truediv, modify, log_info, emit, raise. simpl.
  rewrite Hans. simpl. rewrite Hz. simpl.
  repeat split. apply in_or_app. right. by left.
Qed.

End CallbackFacts.

(** ** [generate_svg] *)

Module DrawFacts.

Lemma add_elements_nil (dwg : Drawing) : add_elements dwg [] = dwg.
Proof. unfold add_elements. rewrite app_nil_r. by destruct dwg. Qed.

Lemma add_elements_app (dwg : Drawing) (xs ys : list SvgElement) :
  add_elements (add_elements dwg xs) ys = add_elements dwg (xs ++ ys).
Proof. unfold add_elements. simpl. by rewrite app_assoc. Qed.

Lemma shadow_text_runs (x y : Z) (text : string) (size : Z) (dwg : Drawing) :
  shadow_text x y text size dwg
  = (Return tt,
     add_elements dwg [SvgText text (x + 1, y + 1) "black" size;
                       SvgText text (x, y) "white" size]).
Proof.
  unfold shadow_text, bind, dwg_add, modify, add_elements. simpl.
  by rewrite <- app_assoc.
Qed.

Lemma draw_text_lines_runs (y : Z) (text_lines : list string) (dwg : Drawing) :
  draw_text_lines y text_lines dwg
  = (Return tt, add_elements dwg (text_rows y text_lines)).
Proof.
  revert y dwg. induction text_lines as [|line rest IH]; intros y dwg.
  - simpl. unfold ret. by rewrite add_elements_nil.
  - cbn [draw_text_lines text_rows]. unfold bind at 1. rewrite shadow_text_runs.
    rewrite IH, add_elements_app. reflexivity.
Qed.

(** One candidate with a known label: its label twice and its box. *)
Lemma draw_obj_runs (width height : Z) (labels : gmap Z (list ascii))
    (obj : DetectionCandidate) (dwg : Drawing) :
  convertible width height obj ->
  is_Some (labels !! label_id obj) ->
  exists new,
    draw_obj width height labels obj dwg = (Return tt, add_elements dwg new)
    /\ length new = 3%nat
    /\ length (List.filter is_rect new) = 1%nat.
Proof.
  unfold convertible, draw_obj.
  destruct (bounding_box obj) as [[[x0 y0] x1] y1].
  intros ([x Hx] & [y Hy] & [w Hw] & [h Hh] & [percent Hp]) [name Hname].
  unfold bind, lift_outcome, ret. rewrite Hx, Hy, Hw, Hh, Hp, Hname.
  rewrite shadow_text_runs. unfold dwg_add, modify. eexists. split.
  - unfold add_elements. simpl. rewrite <- app_assoc. reflexivity.
  - by split.
Qed.

(** One candidate with an unknown label: nothing is drawn for it. *)
Lemma draw_obj_unknown (width height : Z) (labels : gmap Z (list ascii))
    (obj : DetectionCandidate) (dwg : Drawing) :
  convertible width height obj ->
  labels !! label_id obj = None ->
  draw_obj width height labels obj dwg
  = (Raise (Foreign "KeyError" (pretty (label_id obj))), dwg).
Proof.
  unfold convertible, draw_obj.
  destruct (bounding_box obj) as [[[x0 y0] x1] y1].
  intros ([x Hx] & [y Hy] & [w Hw] & [h Hh] & [percent Hp]) Hname.
  unfold bind, lift_outcome, raise. by rewrite Hx, Hy, Hw, Hh, Hp, Hname.
Qed.

Lemma draw_objs_runs (width height : Z) (labels : gmap Z (list ascii))
    (objs : list DetectionCandidate) (dwg : Drawing) :
  Forall (convertible width height) objs ->
  Forall (fun obj => is_Some (labels !! label_id obj)) objs ->
  exists boxes,
    draw_objs width height labels objs dwg = (Return tt, add_elements dwg boxes)
    /\ length boxes = (3 * length objs)%nat
    /\ length (List.filter is_rect boxes) = length objs.
Proof.
  intros Hconv. revert dwg.
  induction Hconv as [|obj objs Hobj _ IH]; intros dwg Hknown.
  - exists []. simpl. unfold ret. by rewrite add_elements_nil.
  - apply Forall_cons in Hknown as [Hk Hknown].
    destruct (draw_obj_runs width height labels obj dwg Hobj Hk)
      as (new & Hnew & Hlen & Hrect).
    destruct (IH (add_elements dwg new) Hknown) as (boxes & Hboxes & Hlen' & Hrect').
    exists (new ++ boxes). cbn [draw_objs]. unfold bind. rewrite Hnew, Hboxes.
    rewrite add_elements_app. split; [done|].
    rewrite length_app, List.filter_app, length_app. cbn [length]. lia.
Qed.

Lemma draw_objs_stops (width height : Z) (labels : gmap Z (list ascii))
    (good rest : list DetectionCandidate) (obj : DetectionCandidate) (dwg : Drawing) :
  Forall (convertible width height) good ->
  Forall (fun o => is_Some (labels !! label_id o)) good ->
  convertible width height obj ->
  labels !! label_id obj = None ->
  exists boxes,
    draw_objs width height labels (good ++ obj :: rest) dwg
    = (Raise (Foreign "KeyError" (pretty (label_id obj))), add_elements dwg boxes)
    /\ length boxes = (3 * length good)%nat
    /\ length (List.filter is_rect boxes) = length good.
Proof.
  intros Hconv. revert dwg.
  induction Hconv as [|o good Ho _ IH]; intros dwg Hknown Hobj Hnone.
  - exists []. cbn [app draw_objs]. unfold bind.
    rewrite (draw_obj_unknown width height labels obj dwg Hobj Hnone).
    by rewrite add_elements_nil.
  - apply Forall_cons in Hknown as [Hk Hknown].
    destruct (draw_obj_runs width height labels o dwg Ho Hk)
      as (new & Hnew & Hlen & Hrect).
    destruct (IH (add_elements dwg new) Hknown Hobj Hnone)
      as (boxes & Hboxes & Hlen' & Hrect').
    exists (new ++ boxes). cbn [app draw_objs]. unfold bind. rewrite Hnew.
    fold (draw_objs width height labels (good ++ obj :: rest)). rewrite Hboxes.
    rewrite add_elements_app. split; [done|].
    rewrite length_app, List.filter_app, length_app. cbn [length]. lia.
Qed.

End DrawFacts.

(** X18: when every candidate has a known label (and a box and score that
    convert to whole numbers), [generate_svg] returns; it keeps what the
    drawing held and its size, and adds the text lines first, each in white
    over its black shadow and twenty pixels below the one before, then three
    elements per candidate, one of them a rectangle. *)
Theorem generate_svg_draws (objs : list DetectionCandidate)
    (labels : gmap Z (list ascii)) (text_lines : list string) (dwg : Drawing) :
  Forall (convertible (attribs_width dwg) (attribs_height dwg)) objs ->
  Forall (fun obj => is_Some (labels !! label_id obj)) objs ->
  let r := generate_svg objs labels text_lines dwg in
  fst r = Return tt
  /\ attribs_width (snd r) = attribs_width dwg
  /\ attribs_height (snd r) = attribs_height dwg
  /\ exists boxes,
      elements (snd r) = elements dwg ++ text_rows 0 text_lines ++ boxes
      /\ length boxes = (3 * length objs)%nat
      /\ length (List.filter is_rect boxes) = length objs.
Proof.
  intros Hconv Hknown r. subst r.
  unfold generate_svg, bind, gets. rewrite DrawFacts.draw_text_lines_runs.
  destruct (DrawFacts.draw_objs_runs (attribs_width dwg) (attribs_height dwg) labels
              objs (add_elements dwg (text_rows 0 text_lines)) Hconv Hknown)
    as (boxes & -> & Hlen & Hrect).
  rewrite DrawFacts.add_elements_app. cbn [fst snd add_elements attribs_width
    attribs_height elements]. repeat split. by exists boxes.
Qed.

(** X19: a candidate whose label_id is not in the mapping stops
    [generate_svg] with a KeyError; the text lines and the candidates before
    it stay on the drawing, and nothing is drawn for it or for those after
    it. *)
Theorem generate_svg_unknown_label (good rest : list DetectionCandidate)
    (obj : DetectionCandidate) (labels : gmap Z (list ascii))
    (text_lines : list string) (dwg : Drawing) :
  Forall (convertible (attribs_width dwg) (attribs_height dwg)) good ->
  Forall (fun o => is_Some (labels !! label_id o)) good ->
  convertible (attribs_width dwg) (attribs_height dwg) obj ->
  labels !! label_id obj = None ->
  let r := generate_svg (good ++ obj :: rest) labels text_lines dwg in
  fst r = Raise (Foreign "KeyError" (pretty (label_id obj)))
  /\ exists boxes,
      elements (snd r) = elements dwg ++ text_rows 0 text_lines ++ boxes
      /\ length boxes = (3 * length good)%nat
      /\ length (List.filter is_rect boxes) = length good.
Proof.
  intros Hconv Hknown Hobj Hnone r. subst r.
  unfold generate_svg, bind, gets. rewrite DrawFacts.draw_text_lines_runs.
  destruct (DrawFacts.draw_objs_stops (attribs_width dwg) (attribs_height dwg) labels
              good rest obj (add_elements dwg (text_rows 0 text_lines))
              Hconv Hknown Hobj Hnone)
    as (boxes & -> & Hlen & Hrect).
  rewrite DrawFacts.add_elements_app. cbn [fst snd add_elements elements].
  split; [done|]. by exists boxes.
Qed.

(** ** The further properties on the test bench *)

Lemma bench_load :
  load_labels Bench.env (VStr "coco_labels.txt") Bench.world0
  = (Return Bench.coco_labels, Bench.world0).
Proof. vm_compute. reflexivity. Qed.

Lemma leading_whitespace_is_ignored_witness :
  Re.rmatch p (of_string "   7 cat") = Re.rmatch p (of_string "7 cat").
Proof.
  apply (leading_whitespace_is_ignored (of_string "   ") (of_string "7 cat")).
  repeat constructor.
Defined.

Lemma load_labels_returns_iff_witness :
  exists m,
    load_labels Bench.env (VStr "coco_labels.txt") Bench.world0 = (Return m, Bench.world0).
Proof.
  apply (proj2 (load_labels_returns_iff Bench.env (VStr "coco_labels.txt") Bench.world0
                  (of_string "0 person
15 cat
") eq_refl)).
  vm_compute. repeat econstructor.
Defined.

Lemma blank_line_fails_load_witness :
  load_labels Bench2.env_files (VStr "blank.txt") Bench.world0
  = (Raise (AttributeError "'NoneType' object has no attribute 'groups'"), Bench.world0).
Proof.
  apply (blank_line_fails_load Bench2.env_files (VStr "blank.txt") Bench.world0
           (of_string "0 person

15 cat
") [LF] eq_refl).
  - vm_compute. right. left.
  - repeat constructor.
Defined.

Lemma loaded_labels_are_clean_witness :
  0 <= 15
  /\ lstrip (of_string "cat") = of_string "cat"
  /\ rstrip (of_string "cat") = of_string "cat".
Proof.
  apply (loaded_labels_are_clean Bench.env (VStr "coco_labels.txt") Bench.world0
           Bench.world0 Bench.coco_labels 15 (of_string "cat") bench_load).
  vm_compute. reflexivity.
Defined.

Lemma later_line_wins_witness :
  (<[1 := of_string "dog"]> ∅ : gmap Z (list ascii)) !! int (of_string "1")
  = Some (strip (of_string " dog")).
Proof.
  apply (later_line_wins Bench2.env_files (VStr "twice.txt") Bench.world0 Bench.world0
           (<[1 := of_string "dog"]> ∅) (of_string "1 cat
1 dog
") [of_string "1 cat
"] [] (of_string "1 dog
") (of_string "1") (of_string " dog")).
  - reflexivity.
  - reflexivity.
  - reflexivity.
  - intros line' num' label' Hin. by apply elem_of_nil in Hin.
  - vm_compute. reflexivity.
Defined.

Lemma crlf_file_loads_the_same_witness :
  load_labels Bench2.env_files (VStr "dos.txt") Bench.world0
  = load_labels Bench2.env_files (VStr "coco_labels.txt") Bench.world0.
Proof.
  apply (crlf_file_loads_the_same Bench2.env_files (VStr "coco_labels.txt")
           (VStr "dos.txt") Bench.world0 (of_string "0 person
15 cat
")).
  - repeat constructor.
  - reflexivity.
  - reflexivity.
Defined.

Lemma leading_zeros_are_ignored_witness :
  label_fields (of_string "007 cat") = Some (of_string "007", of_string " cat")
  /\ int (of_string "007") = int (of_string "7").
Proof.
  exact (leading_zeros_are_ignored 2 (of_string "7 cat") (of_string "7")
           (of_string " cat") eq_refl eq_refl).
Defined.

Lemma samples_go_to_the_wired_element_witness :
  Some 7%nat = Some 7%nat
  /\ sample_labels
       (produced Bench.env (run_calls Bench.env ["frame"%string] Bench.st1)
          [(0, 0.87%float)])
     = labels Bench.stage.
Proof.
  apply (samples_go_to_the_wired_element Bench.env (Bench.cfg "coco_labels.txt")
           Bench.world0 Bench.world1 Bench.world1 Bench.stage (Some 7%nat)
           ["frame"%string] "another frame" 7%nat
           (produced Bench.env (run_calls Bench.env ["frame"%string] Bench.st1)
              [(0, 0.87%float)])
           bench_construction).
  vm_compute. left. reflexivity.
Defined.

Lemma zero_elapsed_call_witness :
  fst (receive_next_sample Bench.env "frame" Bench2.st_stalled)
  = Raise (ZeroDivisionError "float division by zero")
  /\ self (snd (receive_next_sample Bench.env "frame" Bench2.st_stalled))
     = self Bench2.st_stalled.
Proof.
  destruct (zero_elapsed_call Bench.env Bench2.st_stalled "frame" [(0, 0.87%float)]
              eq_refl eq_refl) as (Hraise & Hself & _).
  split; [exact Hraise|exact Hself].
Defined.

Lemma next_element_failure_witness :
  fst (receive_next_sample Bench2.env_broken_sink "frame" Bench.st1)
  = Raise (Foreign "RuntimeError" "sink failure")
  /\ last_time (self (snd (receive_next_sample Bench2.env_broken_sink "frame" Bench.st1)))
     = 10.5%float.
Proof.
  destruct (next_element_failure Bench2.env_broken_sink Bench.st1 "frame"
              [(0, 0.87%float)] 7%nat (Foreign "RuntimeError" "sink failure")
              eq_refl eq_refl eq_refl eq_refl) as (Hraise & Hlast & _).
  split; [exact Hraise|exact Hlast].
Defined.

Lemma dead_engine_never_forwards_witness :
  self (run_calls Bench2.env_dead_engine ["a"; "b"; "c"]%string Bench.st1)
  = self Bench.st1
  /\ forwards (events_since (world Bench.st1)
                 (run_calls Bench2.env_dead_engine ["a"; "b"; "c"]%string Bench.st1))
     = [].
Proof.
  destruct (dead_engine_never_forwards Bench2.env_dead_engine
              ["a"; "b"; "c"]%string Bench.st1) as (Hself & Hfw & _).
  - intros now eng image thr kar rel k. eexists. reflexivity.
  - split; [exact Hself|exact Hfw].
Defined.

Lemma failed_construction_witness :
  ticks (snd (AiInference_init Bench.env (Some (Bench.cfg "broken.txt")) Bench.world0))
  = 0%nat.
Proof.
  apply (failed_construction Bench.env (Some (Bench.cfg "broken.txt")) Bench.world0
           (snd (AiInference_init Bench.env (Some (Bench.cfg "broken.txt")) Bench.world0))
           (AttributeError "'NoneType' object has no attribute 'groups'")).
  vm_compute. reflexivity.
Defined.

Lemma returned_construction_witness :
  next_element (base Bench.stage) = None /\ ticks Bench.world1 = 1%nat.
Proof.
  destruct (returned_construction Bench.env (Some (Bench.cfg "coco_labels.txt"))
              Bench.world0 Bench.world1 Bench.stage bench_construction)
    as (cfg & _ & _ & Hnext & _ & _ & Hticks & _).
  split; [exact Hnext|exact Hticks].
Defined.

Lemma inference_callback_updates_timing_witness :
  fst (inference_callback Bench.env "frame" Bench2.callback0)
  = Raise (Foreign "NameError" "name 'text_lines' is not defined")
  /\ cb_last_time (snd (inference_callback Bench.env "frame" Bench2.callback0))
     = 10.5%float.
Proof.
  destruct (inference_callback_updates_timing Bench.env Bench2.callback0 "frame"
              [(0, 0.87%float)] eq_refl eq_refl) as (Hraise & Hlast & _).
  split; [exact Hraise|exact Hlast].
Defined.

Lemma bench_convertible :
  convertible 640 480 Bench2.person /\ convertible 640 480 Bench2.unknown.
Proof.
  split; unfold convertible; simpl; repeat split; eexists; vm_compute; reflexivity.
Qed.

Lemma generate_svg_draws_witness :
  fst (generate_svg [Bench2.person] Bench.coco_labels ["Inference"; "FPS"]%string
         Bench2.canvas) = Return tt.
Proof.
  apply (generate_svg_draws [Bench2.person] Bench.coco_labels
           ["Inference"; "FPS"]%string Bench2.canvas).
  - constructor; [apply bench_convertible|constructor].
  - constructor; [|constructor]. vm_compute. by eexists.
Defined.

Lemma generate_svg_unknown_label_witness :
  fst (generate_svg [Bench2.person; Bench2.unknown; Bench2.person] Bench.coco_labels
         ["Inference"; "FPS"]%string Bench2.canvas)
  = Raise (Foreign "KeyError" "99").
Proof.
  apply (generate_svg_unknown_label [Bench2.person] [Bench2.person] Bench2.unknown
           Bench.coco_labels ["Inference"; "FPS"]%string Bench2.canvas).
  - constructor; [apply bench_convertible|constructor].
  - constructor; [|constructor]. vm_compute. by eexists.
  - apply bench_convertible.
  - vm_compute. reflexivity.
Defined.

(** The drawing of the specification's end-to-end example: the detection of
    class 0 with score 0.87 is labelled ["87% person"]. *)
Example generate_svg_example :
  elements (snd (generate_svg [Bench2.person] Bench.coco_labels [] Bench2.canvas))
  = [SvgText "87% person" (65, 44) "black" 20;
     SvgText "87% person" (64, 43) "white" 20;
     SvgRect (64, 48) (256, 192) "red" 0.3 "white"].
Proof. vm_compute. reflexivity. Qed.
